(** * PingerchipsProvider (src/lib/provider.ts): a shallow embedding

    The provider is an event-driven object: every handler runs to completion,
    mutates the provider's fields and the objects it shares with its caller
    (the Y.Doc, the Awareness instance, the host's unload hooks), and talks to
    the outside through calls whose order matters (signals emitted on the
    provider, channel triggers, store calls, log lines).

    A handler is embedded as a computation in a small monad that threads the
    state, appends the observable calls to a trace and carries JavaScript
    exceptions.  The two [async] methods are split at their single [await].

    The libraries the provider calls (yjs, y-protocols, js-base64, lib0) are
    an interface, [Libraries]: every theorem holds for whatever they compute
    or throw.  The Document Store is the caller's object: the class declares
    the field [store] and never assigns it, so the field is part of the
    state; calls made on a store are in the trace and its answers are
    events. *)

From Stdlib Require Import ZArith List String Bool Arith Lia.
From Stdlib.Strings Require Import Byte.
Import ListNotations.

Set Implicit Arguments.

(** ** Values *)

(** A [Uint8Array]. *)
Definition Uint8Array := list byte.

(** A thrown value or a rejection reason.  [TypeError p] is the error of
    reading the property [p] off [undefined].  [UnhandledErrorEvent] is what
    [EventEmitter.emit('error', v)] raises when [v] is not an [Error] and
    nothing listens on ['error']. *)
Inductive Exn :=
| Error (msg : string)
| TypeError (property : string)
| UnhandledErrorEvent.

(** The [origin] argument of a document or awareness update. *)
Inductive Origin :=
| OriginThis
| OriginUndefined
| OriginOther (tag : string).

(** [origin !== this] *)
Definition origin_is_not_this (o : Origin) : bool :=
  match o with OriginThis => false | _ => true end.

(** The methods of the class that are used as function values. *)
Inductive Method :=
| MOnDocumentUpdate
| MOnAwarenessUpdate
| MRemoveSelfFromAwarenessOnUnload.

(** Function objects, compared by identity as [off], [removeEventListener]
    and [process.off] do.  [this.m] always denotes the same object (the one on
    the prototype); [this.m.bind(this)] and [() => this.m] build a new object
    each time they are evaluated, told apart here by an allocation number. *)
Inductive Fn :=
| FnMethod (m : Method)
| FnBound (id : nat) (m : Method)
| FnArrow (id : nat) (m : Method).

Definition Method_eqb (a b : Method) : bool :=
  match a, b with
  | MOnDocumentUpdate, MOnDocumentUpdate
  | MOnAwarenessUpdate, MOnAwarenessUpdate
  | MRemoveSelfFromAwarenessOnUnload, MRemoveSelfFromAwarenessOnUnload => true
  | _, _ => false
  end.

Definition Fn_eqb (f g : Fn) : bool :=
  match f, g with
  | FnMethod a, FnMethod b => Method_eqb a b
  | FnBound i a, FnBound j b => Nat.eqb i j && Method_eqb a b
  | FnArrow i a, FnArrow j b => Nat.eqb i j && Method_eqb a b
  | _, _ => false
  end.

(** [observers.delete(f)]: drops the entries identical to [f]. *)
Definition off (f : Fn) (l : list Fn) : list Fn :=
  filter (fun g => negb (Fn_eqb g f)) l.

(** Signals of the provider (it extends [EventEmitter]).  The two lifecycle
    signals are listened to by [onConnect] and [onDisconnect]; the others
    either have no listener installed by the provider or one that only
    triggers on the channel. *)
Inductive Signal :=
| SigError | SigStatus | SigSynced | SigSync | SigSave
| SigMessage | SigAwareness.

Inductive Lifecycle := SigConnect | SigDisconnect.

Inductive Payload :=
| PThis
| PBytes (u : Uint8Array)
| PExn (e : Exn)
| PStatus (status : string)
| PBool (b : bool)
| PVersion (v : Z).

(** The two application events of the channel. *)
Inductive ChannelEvent := ClientMessage | ClientAwareness.

(** What the provider does to the outside, in order.  A log line is kept
    by its text, without the values appended to or interpolated in it.
    [Rejected e]: the promise an [async] method returned to its caller is
    rejected with [e].  [NewAwareness c]: the constructor of y-protocols'
    [Awareness] ran for client [c]; it arms an interval of the library's own
    and puts a listener on the document's ['destroy']. *)
Inductive Effect :=
| Log (line : string)
| Emit (sig : Signal) (p : Payload)
| EmitLifecycle (sig : Lifecycle)
| Trigger (ev : ChannelEvent) (data : string)
| Subscribe (name : string)
| ChannelDisconnect
| StoreGet
| StoreSet (content : Uint8Array)
| SetInterval (id : nat) (ms : Z)
| ClearInterval (id : nat)
| LogExn (e : Exn)
| YApplyUpdate (update : Uint8Array) (origin : Origin)
| Rejected (e : Exn)
| NewAwareness (client : Z).

(** ** JavaScript [Map]s

    Keys in insertion order: [Array.from(m.keys())] is [keys]. *)
Section JsMap.
Variable V : Type.

Definition JsMap := list (Z * V).

Fixpoint map_get (k : Z) (m : JsMap) : option V :=
  match m with
  | [] => None
  | (k', v) :: m' => if Z.eqb k' k then Some v else map_get k m'
  end.

Definition map_has (k : Z) (m : JsMap) : bool :=
  match map_get k m with Some _ => true | None => false end.

Definition map_delete (k : Z) (m : JsMap) : JsMap :=
  filter (fun kv => negb (Z.eqb (fst kv) k)) m.

Fixpoint map_set (k : Z) (v : V) (m : JsMap) : JsMap :=
  match m with
  | [] => [(k, v)]
  | (k', v') :: m' =>
      if Z.eqb k' k then (k, v) :: m' else (k', v') :: map_set k v m'
  end.

Definition keys (m : JsMap) : list Z := map fst m.
End JsMap.

(** ** Configuration *)

(** [resyncInterval?: number | false] *)
Inductive ResyncInterval :=
| RUndefined
| RFalse
| RNumber (ms : Z).

(** JavaScript truthiness of the field. *)
Definition resync_truthy (r : ResyncInterval) : bool :=
  match r with
  | RNumber ms => negb (Z.eqb ms 0)
  | _ => false
  end.

(** [typeof window] and [typeof process]. *)
Inductive Host := HostBrowser | HostNode | HostBare.

(** An object with the methods [get] and [set] of the interface
    [DocumentStore].  It is the caller's: what the methods answer is an event
    of the loop. *)
Inductive DocumentStore := ExternalStore.

(** ** The libraries

    yjs, y-protocols, js-base64 and lib0 as an interface: the provider is
    verified against any implementation of it. *)

(** [Y.applyUpdate(doc, update, origin)]: the content afterwards, the delta
    carried by the ['update'] event if one fires, and the exception if the
    call throws. *)
Record YResult (D : Type) := {
  y_doc : D;
  y_event : option Uint8Array;
  y_threw : option Exn
}.

(** [awarenessProtocol.applyAwarenessUpdate]: the maps as the call leaves
    them, the [added], [updated] and [removed] lists of its ['update'] event,
    and the exception when the message cannot be read.  The library reads
    the message entry by entry and fires its events after the last one: when
    it throws, the entries read so far are in the maps and no event fires. *)
Record AwResult (S : Type) := {
  a_states : JsMap S;
  a_meta : JsMap nat;
  a_added : list Z;
  a_updated : list Z;
  a_removed : list Z;
  a_threw : option Exn
}.

Class Libraries := {
  (** what a Y.Doc holds *)
  YDoc : Type;
  encodeStateAsUpdate : YDoc -> Uint8Array;
  Y_applyUpdate : YDoc -> Uint8Array -> YResult YDoc;
  (** the state a participant publishes, and the [{}] a new [Awareness]
      sets as local state *)
  AwState : Type;
  emptyState : AwState;
  (** the bytes for a list of clients that all have a clock in the second
      map; the library throws on a client that has none, which the callers
      below test for where the list is not the one of an ['update'] event *)
  encodeAwarenessUpdate : JsMap AwState -> JsMap nat -> list Z -> Uint8Array;
  applyAwarenessUpdate_lib :
    JsMap AwState -> JsMap nat -> Uint8Array -> AwResult AwState;
  (** js-base64's encoder *)
  fromUint8Array : Uint8Array -> string;
  (** lib0/buffer's decoder: in a browser it throws on a string that is not
      base64 *)
  fromBase64 : string -> Exn + Uint8Array
}.

Section Provider.

Context {libraries : Libraries}.

(** *** Objects *)

Record Doc := {
  clientID : Z;
  ystate : YDoc;                   (* what the document holds *)
  doc_observers : list Fn          (* listeners of 'update' *)
}.

Record Awareness := {
  aw_clientID : Z;
  states : JsMap AwState;
  meta : JsMap nat;                (* the clock of each client *)
  aw_observers : list Fn           (* listeners of 'update' *)
}.

Record PingerchipsProviderConfig := {
  cfg_channel : string;
  cfg_tableName : string;
  cfg_columnName : string;
  cfg_awareness : option Awareness;
  cfg_resyncInterval : ResyncInterval
}.

(** The provider with the objects it points to and the part of the runtime
    it registers things with. *)
Record State := {
  doc : Doc;
  awareness : Awareness;
  config : PingerchipsProviderConfig;
  connected : bool;
  channel : option string;
  _synced : bool;
  resyncInterval : option nat;
  version : Z;
  store : option DocumentStore;    (* [None]: undefined *)
  (* runtime *)
  host : Host;
  unloadHooks : list Fn;           (* 'beforeunload' or 'exit' listeners *)
  liveTimers : list nat;           (* the provider's intervals that fire *)
  fresh : nat;                     (* next allocation number *)
  errorListeners : nat;            (* 'error' listeners added by the caller *)
  pendingGet : nat;                (* store.get() calls not settled yet *)
  pendingSet : nat                 (* store.set() calls not settled yet *)
}.

Definition with_doc (d : Doc) (s : State) : State :=
  {| doc := d; awareness := awareness s; config := config s;
     connected := connected s; channel := channel s; _synced := _synced s;
     resyncInterval := resyncInterval s; version := version s;
     store := store s; host := host s; unloadHooks := unloadHooks s;
     liveTimers := liveTimers s; fresh := fresh s;
     errorListeners := errorListeners s;
     pendingGet := pendingGet s; pendingSet := pendingSet s |}.

Definition with_awareness (a : Awareness) (s : State) : State :=
  {| doc := doc s; awareness := a; config := config s;
     connected := connected s; channel := channel s; _synced := _synced s;
     resyncInterval := resyncInterval s; version := version s;
     store := store s; host := host s; unloadHooks := unloadHooks s;
     liveTimers := liveTimers s; fresh := fresh s;
     errorListeners := errorListeners s;
     pendingGet := pendingGet s; pendingSet := pendingSet s |}.

Definition with_connected (b : bool) (s : State) : State :=
  {| doc := doc s; awareness := awareness s; config := config s;
     connected := b; channel := channel s; _synced := _synced s;
     resyncInterval := resyncInterval s; version := version s;
     store := store s; host := host s; unloadHooks := unloadHooks s;
     liveTimers := liveTimers s; fresh := fresh s;
     errorListeners := errorListeners s;
     pendingGet := pendingGet s; pendingSet := pendingSet s |}.

Definition with_channel (c : option string) (s : State) : State :=
  {| doc := doc s; awareness := awareness s; config := config s;
     connected := connected s; channel := c; _synced := _synced s;
     resyncInterval := resyncInterval s; version := version s;
     store := store s; host := host s; unloadHooks := unloadHooks s;
     liveTimers := liveTimers s; fresh := fresh s;
     errorListeners := errorListeners s;
     pendingGet := pendingGet s; pendingSet := pendingSet s |}.

Definition with_synced (b : bool) (s : State) : State :=
  {| doc := doc s; awareness := awareness s; config := config s;
     connected := connected s; channel := channel s; _synced := b;
     resyncInterval := resyncInterval s; version := version s;
     store := store s; host := host s; unloadHooks := unloadHooks s;
     liveTimers := liveTimers s; fresh := fresh s;
     errorListeners := errorListeners s;
     pendingGet := pendingGet s; pendingSet := pendingSet s |}.

Definition with_resyncInterval (t : option nat) (s : State) : State :=
  {| doc := doc s; awareness := awareness s; config := config s;
     connected := connected s; channel := channel s; _synced := _synced s;
     resyncInterval := t; version := version s;
     store := store s; host := host s; unloadHooks := unloadHooks s;
     liveTimers := liveTimers s; fresh := fresh s;
     errorListeners := errorListeners s;
     pendingGet := pendingGet s; pendingSet := pendingSet s |}.

Definition with_version (v : Z) (s : State) : State :=
  {| doc := doc s; awareness := awareness s; config := config s;
     connected := connected s; channel := channel s; _synced := _synced s;
     resyncInterval := resyncInterval s; version := v;
     store := store s; host := host s; unloadHooks := unloadHooks s;
     liveTimers := liveTimers s; fresh := fresh s;
     errorListeners := errorListeners s;
     pendingGet := pendingGet s; pendingSet := pendingSet s |}.

Definition with_store (st : option DocumentStore) (s : State) : State :=
  {| doc := doc s; awareness := awareness s; config := config s;
     connected := connected s; channel := channel s; _synced := _synced s;
     resyncInterval := resyncInterval s; version := version s;
     store := st; host := host s; unloadHooks := unloadHooks s;
     liveTimers := liveTimers s; fresh := fresh s;
     errorListeners := errorListeners s;
     pendingGet := pendingGet s; pendingSet := pendingSet s |}.

Definition with_unloadHooks (l : list Fn) (s : State) : State :=
  {| doc := doc s; awareness := awareness s; config := config s;
     connected := connected s; channel := channel s; _synced := _synced s;
     resyncInterval := resyncInterval s; version := version s;
     store := store s; host := host s; unloadHooks := l;
     liveTimers := liveTimers s; fresh := fresh s;
     errorListeners := errorListeners s;
     pendingGet := pendingGet s; pendingSet := pendingSet s |}.

Definition with_liveTimers (l : list nat) (s : State) : State :=
  {| doc := doc s; awareness := awareness s; config := config s;
     connected := connected s; channel := channel s; _synced := _synced s;
     resyncInterval := resyncInterval s; version := version s;
     store := store s; host := host s; unloadHooks := unloadHooks s;
     liveTimers := l; fresh := fresh s;
     errorListeners := errorListeners s;
     pendingGet := pendingGet s; pendingSet := pendingSet s |}.

Definition with_fresh (n : nat) (s : State) : State :=
  {| doc := doc s; awareness := awareness s; config := config s;
     connected := connected s; channel := channel s; _synced := _synced s;
     resyncInterval := resyncInterval s; version := version s;
     store := store s; host := host s; unloadHooks := unloadHooks s;
     liveTimers := liveTimers s; fresh := n;
     errorListeners := errorListeners s;
     pendingGet := pendingGet s; pendingSet := pendingSet s |}.

Definition with_errorListeners (n : nat) (s : State) : State :=
  {| doc := doc s; awareness := awareness s; config := config s;
     connected := connected s; channel := channel s; _synced := _synced s;
     resyncInterval := resyncInterval s; version := version s;
     store := store s; host := host s; unloadHooks := unloadHooks s;
     liveTimers := liveTimers s; fresh := fresh s;
     errorListeners := n;
     pendingGet := pendingGet s; pendingSet := pendingSet s |}.

Definition with_pendingGet (n : nat) (s : State) : State :=
  {| doc := doc s; awareness := awareness s; config := config s;
     connected := connected s; channel := channel s; _synced := _synced s;
     resyncInterval := resyncInterval s; version := version s;
     store := store s; host := host s; unloadHooks := unloadHooks s;
     liveTimers := liveTimers s; fresh := fresh s;
     errorListeners := errorListeners s;
     pendingGet := n; pendingSet := pendingSet s |}.

Definition with_pendingSet (n : nat) (s : State) : State :=
  {| doc := doc s; awareness := awareness s; config := config s;
     connected := connected s; channel := channel s; _synced := _synced s;
     resyncInterval := resyncInterval s; version := version s;
     store := store s; host := host s; unloadHooks := unloadHooks s;
     liveTimers := liveTimers s; fresh := fresh s;
     errorListeners := errorListeners s;
     pendingGet := pendingGet s; pendingSet := n |}.

(** *** The monad of handlers *)

Record Res (A : Type) := {
  trace : list Effect;             (* calls made, oldest first *)
  after : State;                   (* the state the handler leaves *)
  result : Exn + A                 (* [inl e]: it threw [e] *)
}.

Definition M (A : Type) := State -> Res A.

Definition ret {A} (a : A) : M A :=
  fun s => {| trace := []; after := s; result := inr a |}.

Definition bind {A B} (m : M A) (k : A -> M B) : M B :=
  fun s =>
    match m s with
    | {| trace := t; after := s'; result := inl e |} =>
        {| trace := t; after := s'; result := inl e |}
    | {| trace := t; after := s'; result := inr a |} =>
        match k a s' with
        | {| trace := t'; after := s''; result := v |} =>
            {| trace := t ++ t'; after := s''; result := v |}
        end
    end.

Definition throw {A} (e : Exn) : M A :=
  fun s => {| trace := []; after := s; result := inl e |}.

(** [try { m } catch (e) { h e }] *)
Definition try_catch {A} (m : M A) (h : Exn -> M A) : M A :=
  fun s =>
    match m s with
    | {| trace := t; after := s'; result := inl e |} =>
        match h e s' with
        | {| trace := t'; after := s''; result := v |} =>
            {| trace := t ++ t'; after := s''; result := v |}
        end
    | {| trace := t; after := s'; result := inr a |} =>
        {| trace := t; after := s'; result := inr a |}
    end.

Definition tell (l : list Effect) : M unit :=
  fun s => {| trace := l; after := s; result := inr tt |}.

Definition gets {A} (f : State -> A) : M A :=
  fun s => {| trace := []; after := s; result := inr (f s) |}.

Definition modify (f : State -> State) : M unit :=
  fun s => {| trace := []; after := f s; result := inr tt |}.

Notation "x <- m ;; k" := (bind m (fun x => k))
  (at level 61, m at next level, right associativity).
Notation "m ;; k" := (bind m (fun _ => k))
  (at level 61, right associativity).

Definition when (b : bool) (m : M unit) : M unit :=
  if b then m else ret tt.

(** [l.forEach(f)] *)
Fixpoint for_each {A} (f : A -> M unit) (l : list A) : M unit :=
  match l with
  | [] => ret tt
  | a :: l' => f a ;; for_each f l'
  end.

Definition logger (line : string) : M unit := tell [Log line].

(** An allocation number for a new function object or timer. *)
Definition alloc : M nat :=
  n <- gets fresh ;;
  modify (with_fresh (S n)) ;;
  ret n.

(** *** The emitter

    [emit] is [EventEmitter.prototype.emit] with the listeners the
    constructor installs: one on ['message'] and one on ['awareness'], both
    triggering on the channel when there is one.  An ['error'] emitted
    while nobody listens on ['error'] is thrown by the emitter (the payload
    itself when it is an [Error]).  Listeners added by the caller are not
    part of the program; of them only the number on ['error'] is kept. *)

(** [this.on('message', (update) => { if (this.channel) ... })] *)
Definition message_listener (update : Uint8Array) : M unit :=
  c <- gets channel ;;
  match c with
  | Some _ => tell [Trigger ClientMessage (fromUint8Array update)]
  | None => ret tt
  end.

(** [this.on('awareness', (update) => { if (this.channel) ... })] *)
Definition awareness_listener (update : Uint8Array) : M unit :=
  c <- gets channel ;;
  match c with
  | Some _ => tell [Trigger ClientAwareness (fromUint8Array update)]
  | None => ret tt
  end.

(** What [emit('error', p)] throws when nobody listens. *)
Definition unhandled (p : Payload) : Exn :=
  match p with
  | PExn e => e
  | _ => UnhandledErrorEvent
  end.

(** [this.emit(sig, p)] for the signals other than ['connect'] and
    ['disconnect']. *)
Definition emit (sig : Signal) (p : Payload) : M unit :=
  tell [Emit sig p] ;;
  match sig with
  | SigError =>
      n <- gets errorListeners ;;
      if Nat.eqb n 0 then throw (unhandled p) else ret tt
  | SigMessage =>
      match p with PBytes update => message_listener update | _ => ret tt end
  | SigAwareness =>
      match p with PBytes update => awareness_listener update | _ => ret tt end
  | _ => ret tt
  end.

(** *** Methods *)

(** [isOnline(online?: boolean)], the argument being [None] when omitted. *)
Definition isOnline (online : option bool) : M bool :=
  match online with
  | None => gets connected          (* !undefined && undefined !== false *)
  | Some b =>
      if negb b && negb (Bool.eqb b false) then gets connected
      else modify (with_connected b) ;; gets connected
  end.

(** The part of an [async] method that runs in its caller's turn.  The
    call returns a promise: an exception thrown in that part rejects the
    promise and the caller goes on. *)
Definition async (m : M unit) : M unit :=
  try_catch m (fun e => tell [Rejected e]).

(** [async save()], up to the [await].  With a store the call of [set] is
    made and [save] waits for its answer.  With the field undefined, reading
    [set] off it throws inside the [try]: the [catch] and what follows it
    run at once. *)
Definition save : M unit :=
  async
    (d <- gets doc ;;
     let content := encodeStateAsUpdate (ystate d) in
     st <- gets store ;;
     match st with
     | Some _ =>
         tell [StoreSet content] ;;
         n <- gets pendingSet ;;
         modify (with_pendingSet (S n))
     | None =>
         try_catch (throw (TypeError "set"))
                   (fun error => emit SigError (PExn error)) ;;
         v <- gets version ;;
         emit SigSave (PVersion v)
     end).

(** [save()] from the [await] on: [r] is [Some error] when [store.set]
    rejected.  A throw here rejects the promise [save] returned. *)
Definition save_settled (r : option Exn) : M unit :=
  n <- gets pendingSet ;;
  modify (with_pendingSet (pred n)) ;;
  match r with
  | Some error => emit SigError (PExn error)
  | None => ret tt
  end ;;
  v <- gets version ;;
  emit SigSave (PVersion v).

Definition onDocumentUpdate (update : Uint8Array) (origin : Origin)
  : M unit :=
  if origin_is_not_this origin then
    _ <- isOnline None ;;
    logger "document updated locally, broadcasting update to peers" ;;
    emit SigMessage (PBytes update) ;;
    save
  else ret tt.

(** The document fires ['update']: its listeners run in registration order.
    The provider only ever registers [onDocumentUpdate.bind(this)] there. *)
Definition doc_fire_update (update : Uint8Array) (origin : Origin)
  : M unit :=
  d <- gets doc ;;
  for_each
    (fun f =>
       match f with
       | FnBound _ MOnDocumentUpdate => onDocumentUpdate update origin
       | _ => ret tt
       end)
    (doc_observers d).

(** The clients an ['update'] event of the awareness lists have a clock:
    the library writes it before it fires the event. *)
Definition onAwarenessUpdate (added updated removed : list Z)
  (origin : Origin) : M unit :=
  let changedClients := added ++ updated ++ removed in
  a <- gets awareness ;;
  let awarenessUpdate :=
    encodeAwarenessUpdate (states a) (meta a) changedClients in
  emit SigAwareness (PBytes awarenessUpdate).

(** The awareness fires ['update']. *)
Definition awareness_fire_update (added updated removed : list Z)
  (origin : Origin) : M unit :=
  a <- gets awareness ;;
  for_each
    (fun f =>
       match f with
       | FnBound _ MOnAwarenessUpdate =>
           onAwarenessUpdate added updated removed origin
       | _ => ret tt
       end)
    (aw_observers a).

(** The loop of y-protocols' [removeAwarenessStates]: a client that has a
    state loses it and is reported; the local client's clock goes up. *)
Fixpoint remove_clients (self : Z) (clients : list Z)
  (st : JsMap AwState) (mt : JsMap nat)
  : JsMap AwState * JsMap nat * list Z :=
  match clients with
  | [] => (st, mt, [])
  | c :: cs =>
      if map_has c st then
        let st1 := map_delete c st in
        let mt1 :=
          if Z.eqb c self then
            match map_get c mt with
            | Some clock => map_set c (S clock) mt
            | None => mt
            end
          else mt in
        let '(st2, mt2, removed) := remove_clients self cs st1 mt1 in
        (st2, mt2, c :: removed)
      else remove_clients self cs st mt
  end.

(** [awarenessProtocol.removeAwarenessStates(this.awareness, clients,
    origin)]: ['update'] fires when something was removed. *)
Definition removeAwarenessStates (clients : list Z) (origin : Origin)
  : M unit :=
  a <- gets awareness ;;
  let '(st, mt, removed) :=
    remove_clients (aw_clientID a) clients (states a) (meta a) in
  modify (with_awareness
            {| aw_clientID := aw_clientID a; states := st; meta := mt;
               aw_observers := aw_observers a |}) ;;
  match removed with
  | [] => ret tt
  | _ :: _ => awareness_fire_update [] [] removed origin
  end.

(** The object a method finds as [this]: the provider when the provider
    calls the method on itself or through a bound copy, the host's object
    (the window, the process) when the host calls a listener that was added
    to it. *)
Inductive This := ThisProvider | ThisHost.

(** [this.doc]: the host's object is taken to have no property of that
    name. *)
Definition this_doc (t : This) : M (option Doc) :=
  match t with
  | ThisProvider => d <- gets doc ;; ret (Some d)
  | ThisHost => ret None
  end.

(** [removeSelfFromAwarenessOnUnload] run on [t].  The arguments of
    [removeAwarenessStates] are evaluated before the call: reading
    [clientID] off an undefined [this.doc] throws. *)
Definition removeSelfFromAwarenessOnUnload_on (t : This) : M unit :=
  d <- this_doc t ;;
  match d with
  | Some d =>
      removeAwarenessStates [clientID d] (OriginOther "window unload")
  | None => throw (TypeError "clientID")
  end.

Definition removeSelfFromAwarenessOnUnload : M unit :=
  removeSelfFromAwarenessOnUnload_on ThisProvider.

Definition applyUpdate (update : Uint8Array) (origin : Origin) : M unit :=
  v <- gets version ;;
  modify (with_version (v + 1)) ;;
  tell [YApplyUpdate update origin] ;;
  d <- gets doc ;;
  let r := Y_applyUpdate (ystate d) update in
  modify (with_doc {| clientID := clientID d; ystate := y_doc r;
                      doc_observers := doc_observers d |}) ;;
  match y_event r with
  | Some delta => doc_fire_update delta origin
  | None => ret tt
  end ;;
  match y_threw r with
  | Some e => throw e
  | None => ret tt
  end.

(** [async onConnect()], up to the [await].  With the field [store]
    undefined, reading [get] off it throws, outside any [try]. *)
Definition onConnect : M unit :=
  async
    (logger "connected" ;;
     st <- gets store ;;
     match st with
     | Some _ =>
         tell [StoreGet] ;;
         n <- gets pendingGet ;;
         modify (with_pendingGet (S n))
     | None => throw (TypeError "get")
     end).

(** [onConnect()] from the [await] on: [r] is [inl e] when [store.get]
    rejected, [inr None] when it gave nothing.  The [await] is not inside a
    [try]: a rejection rejects the promise of [onConnect] there.  The local
    state is looked up under the awareness's client id and the update is
    encoded for the document's: when the awareness has no clock for that
    one, [encodeAwarenessUpdate] throws reading [clock]. *)
Definition onConnect_settled (r : Exn + option Uint8Array) : M unit :=
  n <- gets pendingGet ;;
  modify (with_pendingGet (pred n)) ;;
  match r with
  | inl e => throw e
  | inr data =>
      logger "retrieved data from store" ;;
      match data with
      | Some data =>
          logger "applying update to yjs" ;;
          try_catch (applyUpdate data OriginUndefined)
                    (fun error => tell [LogExn error])
      | None => ret tt
      end ;;
      logger "setting connected flag to true" ;;
      _ <- isOnline (Some true) ;;
      emit SigStatus (PStatus "connected") ;;
      a <- gets awareness ;;
      match map_get (aw_clientID a) (states a) with
      | Some _ =>                   (* getLocalState() !== null *)
          d <- gets doc ;;
          match map_get (clientID d) (meta a) with
          | Some _ =>
              let awarenessUpdate :=
                encodeAwarenessUpdate (states a) (meta a) [clientID d] in
              emit SigAwareness (PBytes awarenessUpdate)
          | None => throw (TypeError "clock")
          end
      | None => ret tt
      end
  end.

Definition disconnect : M unit :=
  c <- gets channel ;;
  match c with
  | Some _ => tell [ChannelDisconnect] ;; modify (with_channel None)
  | None => ret tt
  end.

(** [connect()]: the callbacks it binds are [channel_event] below. *)
Definition connect : M unit :=
  cfg <- gets config ;;
  tell [Subscribe (cfg_channel cfg)] ;;
  modify (with_channel (Some (cfg_channel cfg))).

(** The setter of [synced]. *)
Definition set_synced (state : bool) : M unit :=
  cur <- gets _synced ;;
  if negb (Bool.eqb cur state) then
    logger (String.append "setting sync state to "
                          (if state then "true" else "false")) ;;
    modify (with_synced state) ;;
    emit SigSynced (PBool state) ;;
    emit SigSync (PBool state)
  else ret tt.

Definition onConnecting : M unit :=
  b <- isOnline None ;;
  if negb b then
    logger "connecting" ;;
    emit SigStatus (PStatus "connecting")
  else ret tt.

Definition onDisconnect : M unit :=
  logger "disconnected" ;;
  set_synced false ;;
  _ <- isOnline (Some false) ;;
  logger "set connected flag to false" ;;
  b <- isOnline None ;;
  when b (emit SigStatus (PStatus "disconnected")) ;;
  a <- gets awareness ;;
  d <- gets doc ;;
  let states :=
    filter (fun client => negb (Z.eqb client (clientID d)))
           (keys (states a)) in
  removeAwarenessStates states OriginThis.

Definition onMessage (message : Uint8Array) (origin : Origin) : M unit :=
  b <- isOnline None ;;
  if negb b then ret tt
  else try_catch (applyUpdate message OriginThis)
                 (fun err => tell [LogExn err]).

(** [onAwareness(message)]: the call of [applyAwarenessUpdate] is not in a
    [try]. *)
Definition onAwareness (message : Uint8Array) : M unit :=
  a <- gets awareness ;;
  let r := applyAwarenessUpdate_lib (states a) (meta a) message in
  modify (with_awareness
            {| aw_clientID := aw_clientID a; states := a_states r;
               meta := a_meta r; aw_observers := aw_observers a |}) ;;
  match a_threw r with
  | Some e => throw e
  | None =>
      match a_added r ++ a_updated r ++ a_removed r with
      | [] => ret tt
      | _ :: _ =>
          awareness_fire_update (a_added r) (a_updated r) (a_removed r)
                                OriginThis
      end
  end.

(** [onAuth(message)]: a [Uint8Array] is never falsy, so it only logs. *)
Definition onAuth (message : Uint8Array) : M unit :=
  logger "received bytes from peer" ;;
  logger "processed message (type = MessageAuth)".

Definition clearInterval (id : nat) : M unit :=
  tell [ClearInterval id] ;;
  l <- gets liveTimers ;;
  modify (with_liveTimers (filter (fun t => negb (Nat.eqb t id)) l)).

Definition destroy : M unit :=
  logger "destroying" ;;
  t <- gets resyncInterval ;;
  match t with
  | Some id => clearInterval id
  | None => ret tt
  end ;;
  h <- gets host ;;
  match h with
  | HostBrowser =>
      l <- gets unloadHooks ;;
      modify (with_unloadHooks
                (off (FnMethod MRemoveSelfFromAwarenessOnUnload) l))
  | HostNode =>
      id <- alloc ;;
      l <- gets unloadHooks ;;
      modify (with_unloadHooks
                (off (FnArrow id MRemoveSelfFromAwarenessOnUnload) l))
  | HostBare => ret tt
  end ;;
  a <- gets awareness ;;
  modify (with_awareness
            {| aw_clientID := aw_clientID a; states := states a;
               meta := meta a;
               aw_observers :=
                 off (FnMethod MOnAwarenessUpdate) (aw_observers a) |}) ;;
  d <- gets doc ;;
  modify (with_doc
            {| clientID := clientID d; ystate := ystate d;
               doc_observers :=
                 off (FnMethod MOnDocumentUpdate) (doc_observers d) |}) ;;
  c <- gets channel ;;
  match c with
  | Some _ => disconnect
  | None => ret tt
  end.

(** *** Construction *)

(** [new awarenessProtocol.Awareness(doc)]: the calls the library's
    constructor makes and the object it gives, in which the local client
    starts with the state [{}] at clock 0. *)
Definition new_Awareness (d : Doc) : list Effect * Awareness :=
  ([NewAwareness (clientID d)],
   {| aw_clientID := clientID d;
      states := [(clientID d, emptyState)];
      meta := [(clientID d, 0)];
      aw_observers := [] |}).

(** [this.config.awareness || new awarenessProtocol.Awareness(doc)] *)
Definition awareness_or_new (d : Doc) (cfg : PingerchipsProviderConfig)
  : list Effect * Awareness :=
  match cfg_awareness cfg with
  | Some a => ([], a)
  | None => new_Awareness d
  end.

(** The object when the constructor reaches its first [logger] call: the
    field initialisers (none for [store]), [this.awareness] assigned, and the
    runtime the object is created in. *)
Definition fields (h : Host) (hooks : list Fn) (next : nat) (d : Doc)
  (cfg : PingerchipsProviderConfig) : State :=
  {| doc := d;
     awareness := snd (awareness_or_new d cfg);
     config := cfg;
     connected := false;
     channel := None;
     _synced := false;
     resyncInterval := None;
     version := 0;
     store := None;
     host := h;
     unloadHooks := hooks;
     liveTimers := [];
     fresh := next;
     errorListeners := 0;
     pendingGet := 0;
     pendingSet := 0 |}.

(** [typeof r === 'undefined'] *)
Definition resync_undefined (r : ResyncInterval) : bool :=
  match r with RUndefined => true | _ => false end.

(** [r < 3000] for a truthy [r] *)
Definition resync_below (r : ResyncInterval) (floor : Z) : bool :=
  match r with RNumber ms => Z.ltb ms floor | _ => false end.

(** [r || dflt] *)
Definition resync_or (r : ResyncInterval) (dflt : Z) : Z :=
  match r with
  | RNumber ms => if Z.eqb ms 0 then dflt else ms
  | _ => dflt
  end.

(** [window.addEventListener]: a listener already there is not added twice. *)
Definition addEventListener (f : Fn) (l : list Fn) : list Fn :=
  if existsb (Fn_eqb f) l then l else l ++ [f].

(** The body of the constructor from the first [logger] call on.  The four
    [this.on(...)] calls it makes on the provider itself (['connect'],
    ['disconnect'], ['awareness'], ['message']) are what [emit] and
    [emit_lifecycle] dispatch to; they are never undone.  A number is taken
    as a whole number of milliseconds. *)
Definition constructor_body : M unit :=
  logger "constructor initializing" ;;
  logger "connecting to Pingerchips Realtime" ;;
  cfg <- gets config ;;
  let r := cfg_resyncInterval cfg in
  when (resync_truthy r || resync_undefined r)
    (when (resync_truthy r && resync_below r 3000)
       (throw (Error "resync interval of less than 3 seconds")) ;;
     logger "setting resync interval to every " ;;
     id <- alloc ;;
     tell [SetInterval id (resync_or r 5000)] ;;
     l <- gets liveTimers ;;
     modify (with_liveTimers (id :: l)) ;;
     modify (with_resyncInterval (Some id))) ;;
  h <- gets host ;;
  match h with
  | HostBrowser =>
      l <- gets unloadHooks ;;
      modify (with_unloadHooks
                (addEventListener
                   (FnMethod MRemoveSelfFromAwarenessOnUnload) l))
  | HostNode =>
      id <- alloc ;;
      l <- gets unloadHooks ;;
      modify (with_unloadHooks
                (l ++ [FnArrow id MRemoveSelfFromAwarenessOnUnload]))
  | HostBare => ret tt
  end ;;
  connect ;;
  id <- alloc ;;
  d <- gets doc ;;
  modify (with_doc
            {| clientID := clientID d; ystate := ystate d;
               doc_observers :=
                 doc_observers d ++ [FnBound id MOnDocumentUpdate] |}) ;;
  id <- alloc ;;
  a <- gets awareness ;;
  modify (with_awareness
            {| aw_clientID := aw_clientID a; states := states a;
               meta := meta a;
               aw_observers :=
                 aw_observers a ++ [FnBound id MOnAwarenessUpdate] |}).

(** [new PingerchipsProvider(doc, pusher, config)] in host [h]: the calls
    made for [this.awareness], then the body.  When the result is [inl e]
    the constructor threw and there is no provider. *)
Definition constructor (h : Host) (hooks : list Fn) (next : nat) (d : Doc)
  (cfg : PingerchipsProviderConfig) : Res unit :=
  (tell (fst (awareness_or_new d cfg)) ;; constructor_body)
    (fields h hooks next d cfg).

(** *** What the runtime calls *)

(** The callback of [setInterval]. *)
Definition resync_tick : M unit :=
  logger "resyncing (resync interval elapsed)" ;;
  d <- gets doc ;;
  emit SigMessage (PBytes (encodeStateAsUpdate (ystate d))) ;;
  c <- gets channel ;;
  match c with
  | Some _ =>
      d <- gets doc ;;
      tell [Trigger ClientMessage
              (fromUint8Array (encodeStateAsUpdate (ystate d)))]
  | None => ret tt
  end.

(** [this.emit('connect', this)] and [this.emit('disconnect', this)]: the
    listeners are [onConnect] and [onDisconnect]. *)
Definition emit_lifecycle (sig : Lifecycle) : M unit :=
  tell [EmitLifecycle sig] ;;
  match sig with
  | SigConnect => onConnect
  | SigDisconnect => onDisconnect
  end.

(** What the channel delivers; [status] is the field read from the error
    of a failed subscription. *)
Inductive PusherEvent :=
| ClientMessageData (data : string)
| ClientAwarenessData (data : string)
| PusherError
| SubscriptionError (status : option Z)
| SubscriptionSucceeded.

(** [fromBase64(data)] *)
Definition decode (data : string) : M Uint8Array :=
  match fromBase64 data with
  | inr bytes => ret bytes
  | inl e => throw e
  end.

(** The callbacks bound in [connect()].  The two that carry data decode it
    before they call the handler, outside any [try]. *)
Definition channel_event (e : PusherEvent) : M unit :=
  match e with
  | ClientMessageData data =>
      message <- decode data ;;
      onMessage message OriginThis
  | ClientAwarenessData data =>
      message <- decode data ;;
      onAwareness message
  | PusherError =>
      logger "PUSHER_ERROR" ;;
      emit SigError PThis ;;
      emit_lifecycle SigDisconnect
  | SubscriptionError status =>
      match status with
      | Some 403%Z =>
          logger "PUSHER AUTH ERROR" ;;
          emit SigError PThis ;;
          emit_lifecycle SigDisconnect
      | _ => ret tt
      end
  | SubscriptionSucceeded =>
      logger "PUSHER_SUBSCRIPTION_SUCCEEDED" ;;
      emit_lifecycle SigConnect
  end.

(** *** The event loop *)

(** The public methods a caller can invoke. *)
Inductive Call :=
| CallDestroy
| CallOnDisconnect
| CallOnConnecting
| CallOnMessage (message : Uint8Array) (origin : Origin)
| CallOnAwareness (message : Uint8Array)
| CallOnAuth (message : Uint8Array)
| CallSetSynced (state : bool)
| CallIsOnline (online : option bool)
| CallSave
| CallOnError.                     (* provider.on('error', f) *)

(** What one turn of the loop is about.  [AwarenessChange] is any change of
    the awareness made outside the provider: by its owner, or by the
    interval of the library, which renews the local state and drops the
    clients not heard of for a while. *)
Inductive Event :=
| FromChannel (e : PusherEvent)
| TimerFires (id : nat)
| DocTransaction (d' : YDoc) (delta : Uint8Array) (origin : Origin)
| AwarenessChange (st : JsMap AwState) (mt : JsMap nat)
    (added updated removed : list Z) (origin : Origin)
| StoreGetSettles (r : Exn + option Uint8Array)
| StoreSetSettles (r : option Exn)
| FromCaller (c : Call).

Definition call (c : Call) : M unit :=
  match c with
  | CallDestroy => destroy
  | CallOnDisconnect => onDisconnect
  | CallOnConnecting => onConnecting
  | CallOnMessage message origin => onMessage message origin
  | CallOnAwareness message => onAwareness message
  | CallOnAuth message => onAuth message
  | CallSetSynced state => set_synced state
  | CallIsOnline online => _ <- isOnline online ;; ret tt
  | CallSave => save
  | CallOnError =>
      n <- gets errorListeners ;;
      modify (with_errorListeners (S n))
  end.

(** One turn of the event loop. *)
Definition step (ev : Event) : M unit :=
  match ev with
  | FromChannel e => channel_event e
  | TimerFires _ => resync_tick
  | DocTransaction d' delta origin =>
      d <- gets doc ;;
      modify (with_doc {| clientID := clientID d; ystate := d';
                          doc_observers := doc_observers d |}) ;;
      doc_fire_update delta origin
  | AwarenessChange st mt added updated removed origin =>
      a <- gets awareness ;;
      modify (with_awareness
                {| aw_clientID := aw_clientID a; states := st; meta := mt;
                   aw_observers := aw_observers a |}) ;;
      awareness_fire_update added updated removed origin
  | StoreGetSettles r => onConnect_settled r
  | StoreSetSettles r => save_settled r
  | FromCaller c => call c
  end.

(** Whether the runtime can deliver the event now: a timer fires only
    while it is live, a store call settles only while it is pending. *)
Definition enabled (ev : Event) (s : State) : bool :=
  match ev with
  | TimerFires id => existsb (Nat.eqb id) (liveTimers s)
  | StoreGetSettles _ => negb (Nat.eqb (pendingGet s) 0)
  | StoreSetSettles _ => negb (Nat.eqb (pendingSet s) 0)
  | _ => true
  end.

(** The states a provider goes through. *)
Inductive reachable : State -> Prop :=
| reachable_new h hooks next d cfg :
    result (constructor h hooks next d cfg) = inr tt ->
    reachable (after (constructor h hooks next d cfg))
| reachable_step s ev :
    reachable s -> enabled ev s = true -> reachable (after (step ev s)).

(** A run of the event loop: the events are handled in order; a handler
    that throws ends its own turn only. *)
Fixpoint run (evs : list Event) (s : State) : list Effect * State :=
  match evs with
  | [] => ([], s)
  | ev :: evs' =>
      let r := step ev s in
      let '(t, s') := run evs' (after r) in
      (trace r ++ t, s')
  end.

(** *** The unload hook *)

(** A function object called without arguments and with [t] as [this].  The
    method itself runs on [t]; a bound copy runs on the provider whatever
    [t] is; the arrow [() => this.m] evaluates [this.m] and calls nothing.
    The two handlers of ['update'] are never called this way. *)
Definition apply_fn (f : Fn) (t : This) : M unit :=
  match f with
  | FnMethod MRemoveSelfFromAwarenessOnUnload =>
      removeSelfFromAwarenessOnUnload_on t
  | FnBound _ MRemoveSelfFromAwarenessOnUnload =>
      removeSelfFromAwarenessOnUnload_on ThisProvider
  | _ => ret tt
  end.

(** The host fires ['beforeunload'] or ['exit'] and calls a listener
    registered for it, on itself. *)
Definition call_unload_hook (f : Fn) : M unit := apply_fn f ThisHost.

End Provider.

(** ** A concrete instance, for running the model

    A document is the bytes applied so far and an update is appended to it;
    every application fires ['update'] and none throws.  An awareness
    message lists, one byte each, the clients that join, and is unreadable
    when it holds the byte 255.  The wire encoding is the identity on bytes,
    and the string "?" decodes to nothing. *)
Module Demo.

#[export] Instance libraries : Libraries := {|
  YDoc := Uint8Array;
  encodeStateAsUpdate := fun d => d;
  Y_applyUpdate := fun d u =>
    {| y_doc := d ++ u; y_event := Some u; y_threw := None |};
  AwState := nat;
  emptyState := 0;
  encodeAwarenessUpdate := fun _ _ clients => map (fun _ => "c"%byte) clients;
  applyAwarenessUpdate_lib := fun st mt message =>
    if existsb (Byte.eqb "255"%byte) message then
      {| a_states := st; a_meta := mt;
         a_added := []; a_updated := []; a_removed := [];
         a_threw := Some (Error "Unexpected end of array") |}
    else
      let joined := map (fun b => Z.of_N (Byte.to_N b)) message in
      {| a_states := st ++ map (fun c => (c, 1)) joined;
         a_meta := mt ++ map (fun c => (c, 0)) joined;
         a_added := joined; a_updated := []; a_removed := [];
         a_threw := None |};
  fromUint8Array := string_of_list_byte;
  fromBase64 := fun data =>
    if String.eqb data "?" then inl (Error "InvalidCharacterError")
    else inr (list_byte_of_string data)
|}.

(** An empty document of client 1. *)
Definition doc1 : Doc :=
  {| clientID := 1; ystate := []; doc_observers := [] |}.

Definition config_with (r : ResyncInterval) : PingerchipsProviderConfig :=
  {| cfg_channel := "room"; cfg_tableName := "documents";
     cfg_columnName := "content"; cfg_awareness := None;
     cfg_resyncInterval := r |}.

(** The provider [new PingerchipsProvider(doc1, pusher, config)] gives
    under Node. *)
Definition fresh_provider (r : ResyncInterval) : State :=
  after (constructor HostNode [] 0 doc1 (config_with r)).

(** The same provider once the subscription succeeded and its caller
    marked it online. *)
Definition online_provider : State :=
  snd (run [FromChannel SubscriptionSucceeded;
            FromCaller (CallIsOnline (Some true))]
           (fresh_provider RUndefined)).

(** A provider whose field [store] was given a store from outside the
    class. *)
Definition provider_with_store : State :=
  with_store (Some ExternalStore) (fresh_provider RUndefined).

(** Then the state of client 97 (the byte "a") arrives. *)
Definition provider_with_peer : State :=
  snd (run [FromChannel (ClientAwarenessData "a")] online_provider).

End Demo.

(** ** Reading a trace *)

(** A document delta leaving the provider: on the ['message'] signal or on
    the channel's [client-message] event. *)
Definition is_broadcast (e : Effect) : bool :=
  match e with
  | Emit SigMessage _ => true
  | Trigger ClientMessage _ => true
  | _ => false
  end.

Definition is_message_signal (e : Effect) : bool :=
  match e with Emit SigMessage _ => true | _ => false end.

Definition is_channel_trigger (e : Effect) : bool :=
  match e with Trigger _ _ => true | _ => false end.

(** A call of [store.set]. *)
Definition is_persistence (e : Effect) : bool :=
  match e with StoreSet _ => true | _ => false end.

Definition is_apply (e : Effect) : bool :=
  match e with YApplyUpdate _ _ => true | _ => false end.

Definition is_status (e : Effect) : bool :=
  match e with Emit SigStatus _ => true | _ => false end.

Definition is_log (e : Effect) : bool :=
  match e with Log _ | LogExn _ => true | _ => false end.

(** Presence leaving the provider: on the ['awareness'] signal or on the
    channel. *)
Definition is_presence_out (e : Effect) : bool :=
  match e with
  | Emit SigAwareness _ => true
  | Trigger _ _ => true
  | _ => false
  end.

(** The periods of the provider's own calls of [setInterval] in a trace.
    The interval of a new [Awareness] is the library's and is part of
    [NewAwareness]. *)
Definition intervals_set (t : list Effect) : list Z :=
  flat_map (fun e => match e with SetInterval _ ms => [ms] | _ => [] end) t.

(** ['synced'] or ['sync'] emitted. *)
Definition is_sync_signal (e : Effect) : bool :=
  match e with
  | Emit SigSynced _ | Emit SigSync _ => true
  | _ => false
  end.

(** A call on the transport: subscribing, triggering, disconnecting. *)
Definition uses_channel (e : Effect) : bool :=
  match e with
  | Trigger _ _ | Subscribe _ | ChannelDisconnect => true
  | _ => false
  end.

Definition is_subscribe (e : Effect) : bool :=
  match e with Subscribe _ => true | _ => false end.

(** A call on the Document Store. *)
Definition is_store_call (e : Effect) : bool :=
  match e with StoreGet | StoreSet _ => true | _ => false end.

(** A signal emitted on the provider. *)
Definition is_signal (e : Effect) : bool :=
  match e with Emit _ _ | EmitLifecycle _ => true | _ => false end.

(** [{status: 'connected'}] emitted. *)
Definition is_connected_status (e : Effect) : bool :=
  match e with
  | Emit SigStatus (PStatus status) => String.eqb status "connected"
  | _ => false
  end.

Definition count (p : Effect -> bool) (t : list Effect) : nat :=
  List.length (filter p t).

(** ** Vocabulary of the statements *)

Section Vocabulary.

Context {libraries : Libraries}.

(** The document after [Y.applyUpdate(doc, update, origin)]. *)
Definition applied (update : Uint8Array) (s : State) : State :=
  with_doc {| clientID := clientID (doc s);
              ystate := y_doc (Y_applyUpdate (ystate (doc s)) update);
              doc_observers := doc_observers (doc s) |}
           (with_version (version s + 1) s).

(** The channel's [client-message] callbacks for a list of payloads. *)
Definition deliveries (payloads : list string) : list Event :=
  map (fun data => FromChannel (ClientMessageData data)) payloads.

(** The messages of the payloads that decode, in order. *)
Definition decoded (payloads : list string) : list Uint8Array :=
  flat_map
    (fun data =>
       match fromBase64 data with
       | inr message => [message]
       | inl _ => []
       end)
    payloads.

(** What the listener of ['message'] or ['awareness'] sends. *)
Definition sent (ev : ChannelEvent) (update : Uint8Array) (s : State)
  : list Effect :=
  match channel s with
  | Some _ => [Trigger ev (fromUint8Array update)]
  | None => []
  end.

(** What the provider's awareness handlers send when the awareness fires
    ['update'] for [changed]: each attached handler emits the encoded update
    on ['awareness'], and the listener of that signal forwards it to the
    channel. *)
Definition announced (changed : list Z) (s : State) : list Effect :=
  flat_map
    (fun f =>
       match f with
       | FnBound _ MOnAwarenessUpdate =>
           let update :=
             encodeAwarenessUpdate (states (awareness s)) (meta (awareness s))
                                   changed in
           Emit SigAwareness (PBytes update) ::
           sent ClientAwareness update s
       | _ => []
       end)
    (aw_observers (awareness s)).

(** The awareness after [removeAwarenessStates(awareness, clients, _)]. *)
Definition without (clients : list Z) (s : State) : Awareness :=
  let a := awareness s in
  let r := remove_clients (aw_clientID a) clients (states a) (meta a) in
  {| aw_clientID := aw_clientID a; states := fst (fst r);
     meta := snd (fst r); aw_observers := aw_observers a |}.

(** The clients it reports as removed. *)
Definition dropped (clients : list Z) (s : State) : list Z :=
  let a := awareness s in
  snd (remove_clients (aw_clientID a) clients (states a) (meta a)).

(** The clients [onDisconnect] asks to remove: every key of the awareness
    states other than the document's client id. *)
Definition others (s : State) : list Z :=
  filter (fun client => negb (Z.eqb client (clientID (doc s))))
         (keys (states (awareness s))).

(** The state [onDisconnect] leaves. *)
Definition disconnected (s : State) : State :=
  with_awareness (without (others s) s)
    (with_connected false (if _synced s then with_synced false s else s)).

(** The clean-up on disconnect with nothing leaving the provider: both
    flags false, no entry left for a client other than the document's,
    nothing emitted on ['awareness'] and nothing triggered on the channel,
    and a [destroy()] afterwards that does not throw. *)
Definition cleanup_stays_local (s : State) : Prop :=
  let r := onDisconnect s in
  _synced (after r) = false /\
  connected (after r) = false /\
  (forall c, c <> clientID (doc s) ->
             map_get c (states (awareness (after r))) = None) /\
  filter is_presence_out (trace r) = [] /\
  result (destroy (after r)) = inr tt.

(** A failed subscription, as the specification words it: an error signal,
    a disconnect signal, and a report that differs from that of a generic
    channel error. *)
Definition auth_failure_signalled (s : State) : Prop :=
  let r := channel_event (SubscriptionError (Some 403%Z)) s in
  In (Emit SigError PThis) (trace r) /\
  In (EmitLifecycle SigDisconnect) (trace r) /\
  trace r <> trace (channel_event PusherError s).

(** The constructor went through and armed one resync interval, of period
    [ms]. *)
Definition armed (ms : Z) (next : nat) (r : Res unit) : Prop :=
  result r = inr tt /\
  intervals_set (trace r) = [ms] /\
  resyncInterval (after r) = Some next /\
  liveTimers (after r) = [next].

(** The constructor went through and armed no resync interval. *)
Definition unarmed (r : Res unit) : Prop :=
  result r = inr tt /\
  intervals_set (trace r) = [] /\
  resyncInterval (after r) = None /\
  liveTimers (after r) = [].

(** The constructor threw the error of the floor, having called
    [setInterval] with no period at all. *)
Definition refused (r : Res unit) : Prop :=
  result r = inl (Error "resync interval of less than 3 seconds") /\
  intervals_set (trace r) = [].

Definition timer_view (s : State) : list nat * option nat * option string :=
  (liveTimers s, resyncInterval s, channel s).

Definition keeps (A : Type) (m : M A) : Prop :=
  forall s, timer_view (after (m s)) = timer_view s.

(** While an interval is live it is the provider's, and the provider holds
    a channel. *)
Definition timer_inv (s : State) : Prop :=
  forall id, In id (liveTimers s) ->
             resyncInterval s = Some id /\ channel s <> None.

(** [r] with [l] done before it. *)
Definition prepend (A : Type) (l : list Effect) (r : Res A) : Res A :=
  match r with
  | {| trace := t; after := s; result := v |} =>
      {| trace := l ++ t; after := s; result := v |}
  end.

(** A handler obeys a relation between the state it starts in, what it
    does and the state it leaves, thrown or not. *)
Definition obeys (R : State -> list Effect -> State -> Prop) (A : Type)
  (m : M A) : Prop :=
  forall s, R s (trace (m s)) (after (m s)).

(** The synced flag, once false, stays false and nothing is emitted on
    ['synced'] or ['sync']. *)
Definition stays_unsynced (s : State) (t : list Effect) (s' : State) : Prop :=
  _synced s = false ->
  _synced s' = false /\ Forall (fun e => is_sync_signal e = false) t.

(** The version counter moves by the number of [Y.applyUpdate] calls. *)
Definition counts_applies (s : State) (t : list Effect) (s' : State) : Prop :=
  version s' = (version s + Z.of_nat (count is_apply t))%Z.

(** Without a channel handle none is obtained and the transport is not
    called. *)
Definition stays_released (s : State) (t : list Effect) (s' : State) : Prop :=
  channel s = None ->
  channel s' = None /\ Forall (fun e => uses_channel e = false) t.

(** The bound listeners on the document and on the awareness stay. *)
Definition keeps_listeners (s : State) (t : list Effect) (s' : State)
  : Prop :=
  forall id m,
    (In (FnBound id m) (doc_observers (doc s)) ->
     In (FnBound id m) (doc_observers (doc s'))) /\
    (In (FnBound id m) (aw_observers (awareness s)) ->
     In (FnBound id m) (aw_observers (awareness s'))).

(** The events of a run can be delivered one after the other: each is
    enabled when its turn comes. *)
Fixpoint deliverable (evs : list Event) (s : State) : bool :=
  match evs with
  | [] => true
  | ev :: evs' => enabled ev s && deliverable evs' (after (step ev s))
  end.

(** The field [store] is undefined and no call of a store is awaited. *)
Definition storeless (s : State) : Prop :=
  store s = None /\ pendingGet s = 0 /\ pendingSet s = 0.

(** Without a store none is called. *)
Definition stays_storeless (s : State) (t : list Effect) (s' : State)
  : Prop :=
  storeless s ->
  storeless s' /\ Forall (fun e => is_store_call e = false) t.

(** Without a store and offline, the provider stays offline, does not say
    it is connected and applies nothing to the document. *)
Definition stays_offline (s : State) (t : list Effect) (s' : State) : Prop :=
  storeless s -> connected s = false ->
  storeless s' /\ connected s' = false /\
  Forall (fun e => is_connected_status e = false /\ is_apply e = false) t.

(** What [save()] does in a provider without store: the error of reading
    [set] off the undefined field is emitted on ['error']; ['save'] follows
    when somebody listens on ['error'], and otherwise the emitter throws the
    error back and the promise of [save] is rejected with it. *)
Definition failed_save (s : State) : list Effect :=
  Emit SigError (PExn (TypeError "set")) ::
  (if Nat.eqb (errorListeners s) 0 then [Rejected (TypeError "set")]
   else [Emit SigSave (PVersion (version s))]).

(** The provider's handlers are on the document and on the awareness. *)
Definition listening (s : State) : Prop :=
  (exists id, In (FnBound id MOnDocumentUpdate) (doc_observers (doc s))) /\
  (exists id, In (FnBound id MOnAwarenessUpdate)
                 (aw_observers (awareness s))).

End Vocabulary.

(** ** Facts *)

Section Facts.

Context {libraries : Libraries}.

(** *** The monad *)

(** Unfolds the monad's operations and nothing else. *)
Ltac monad :=
  cbv beta iota zeta
      delta [bind gets modify tell throw ret try_catch when logger
             trace after result].

(** Runs the constructor up to its tests on [resyncInterval]. *)
Ltac construct :=
  cbv beta iota zeta
      delta [constructor constructor_body bind gets tell logger
             trace after result config fields cfg_resyncInterval].

Lemma Res_eta (A : Type) (r : Res A) :
  {| trace := trace r; after := after r; result := result r |} = r.
Proof. destruct r; reflexivity. Qed.

Lemma bind_ret_l (A B : Type) (a : A) (k : A -> M B) (s : State) :
  bind (ret a) k s = k a s.
Proof. unfold bind, ret. destruct (k a s); reflexivity. Qed.

Lemma bind_gets (A B : Type) (f : State -> A) (k : A -> M B) (s : State) :
  bind (gets f) k s = k (f s) s.
Proof. unfold bind, gets. destruct (k (f s) s); reflexivity. Qed.

Lemma bind_modify (B : Type) (f : State -> State) (k : unit -> M B)
  (s : State) :
  bind (modify f) k s = k tt (f s).
Proof. unfold bind, modify. destruct (k tt (f s)); reflexivity. Qed.

Lemma bind_tell (B : Type) (l : list Effect) (k : unit -> M B) (s : State) :
  bind (tell l) k s =
  {| trace := l ++ trace (k tt s); after := after (k tt s);
     result := result (k tt s) |}.
Proof. unfold bind, tell. destruct (k tt s); reflexivity. Qed.

(** A loop whose body leaves the state alone and does not throw: its trace
    is the bodies' traces in order. *)
Lemma for_each_pure (A : Type) (f : A -> M unit) (g : A -> list Effect)
  (s : State) (l : list A) :
  (forall a, In a l ->
             f a s = {| trace := g a; after := s; result := inr tt |}) ->
  for_each f l s = {| trace := flat_map g l; after := s; result := inr tt |}.
Proof.
  induction l as [|a l IH]; intros Hf; cbn [for_each flat_map].
  - reflexivity.
  - unfold bind. rewrite (Hf a (or_introl eq_refl)). cbn.
    rewrite IH by (intros b Hb; apply Hf; right; exact Hb).
    reflexivity.
Qed.

Lemma flat_map_nil (A B : Type) (l : list A) :
  flat_map (fun _ : A => @nil B) l = [].
Proof. induction l; cbn; auto. Qed.

(** *** Origin-tagged updates *)

Lemma onDocumentUpdate_this (update : Uint8Array) (s : State) :
  onDocumentUpdate update OriginThis s =
  {| trace := []; after := s; result := inr tt |}.
Proof. reflexivity. Qed.

(** The document's ['update'] with the provider as origin runs every
    listener to no effect. *)
Lemma doc_fire_update_this (update : Uint8Array) (s : State) :
  doc_fire_update update OriginThis s =
  {| trace := []; after := s; result := inr tt |}.
Proof.
  unfold doc_fire_update, bind, gets; cbn.
  rewrite (for_each_pure _ (fun _ => [])).
  - cbn. rewrite flat_map_nil. reflexivity.
  - intros f _. destruct f as [m|id m|id m]; try reflexivity.
    destruct m; reflexivity.
Qed.

Lemma applyUpdate_this (update : Uint8Array) (s : State) :
  applyUpdate update OriginThis s =
  {| trace := [YApplyUpdate update OriginThis];
     after := applied update s;
     result := match y_threw (Y_applyUpdate (ystate (doc s)) update) with
               | Some e => inl e
               | None => inr tt
               end |}.
Proof.
  unfold applyUpdate, applied. monad. cbn [doc with_doc with_version].
  destruct (Y_applyUpdate (ystate (doc s)) update) as [d ev th].
  cbn [y_doc y_event y_threw].
  destruct ev as [delta|].
  - rewrite doc_fire_update_this. monad. destruct th; reflexivity.
  - destruct th; reflexivity.
Qed.

Lemma onMessage_online (message : Uint8Array) (origin : Origin) (s : State) :
  connected s = true ->
  onMessage message origin s =
  {| trace := YApplyUpdate message OriginThis ::
              match y_threw (Y_applyUpdate (ystate (doc s)) message) with
              | Some e => [LogExn e]
              | None => []
              end;
     after := applied message s;
     result := inr tt |}.
Proof.
  intros Hon.
  unfold onMessage, isOnline. monad.
  rewrite Hon. cbn [negb]. rewrite applyUpdate_this. monad.
  destruct (y_threw _); reflexivity.
Qed.

Lemma onMessage_offline (message : Uint8Array) (origin : Origin) (s : State) :
  connected s = false ->
  onMessage message origin s =
  {| trace := []; after := s; result := inr tt |}.
Proof.
  intros Hoff.
  unfold onMessage, isOnline, bind, gets, ret; cbn.
  rewrite Hoff; reflexivity.
Qed.

Lemma run_cons (ev : Event) (evs : list Event) (s : State) :
  run (ev :: evs) s =
  (trace (step ev s) ++ fst (run evs (after (step ev s))),
   snd (run evs (after (step ev s)))).
Proof. cbn [run]. destruct (run evs (after (step ev s))); reflexivity. Qed.

Lemma count_app (p : Effect -> bool) (t u : list Effect) :
  count p (t ++ u) = count p t + count p u.
Proof. unfold count. rewrite filter_app, length_app. reflexivity. Qed.

(** The callback of [client-message]: it throws on a payload that does not
    decode, before [onMessage] is called. *)
Lemma client_message_callback (data : string) (s : State) :
  step (FromChannel (ClientMessageData data)) s =
  match fromBase64 data with
  | inr message => onMessage message OriginThis s
  | inl e => {| trace := []; after := s; result := inl e |}
  end.
Proof.
  cbn [step channel_event]. unfold decode.
  destruct (fromBase64 data) as [e|message].
  - reflexivity.
  - apply bind_ret_l.
Qed.

(** C1. Echo suppression.  While the provider is online, every document
    message the channel delivers is applied to the document with the
    provider itself as origin, one application for each message that
    decodes and in order (on a payload that does not decode the callback
    throws before [onMessage] and applies nothing); the ['update'] events
    these applications fire make [onDocumentUpdate] emit nothing on
    ['message'], trigger nothing on the channel and call [store.set] never,
    so the number of outbound broadcasts is the same after any number of
    deliveries as before them.  The document ends as the library's
    application of the deltas leaves it and the provider stays online. *)
Theorem remote_applies_do_not_echo (payloads : list string) (s : State) :
  connected s = true ->
  let t := fst (run (deliveries payloads) s) in
  let s' := snd (run (deliveries payloads) s) in
  filter is_apply t =
    map (fun message => YApplyUpdate message OriginThis) (decoded payloads) /\
  (forall before, count is_broadcast (before ++ t) = count is_broadcast before) /\
  count is_persistence t = 0 /\
  pendingSet s' = pendingSet s /\
  ystate (doc s') =
    fold_left (fun d message => y_doc (Y_applyUpdate d message))
              (decoded payloads) (ystate (doc s)) /\
  connected s' = true.
Proof.
  revert s. induction payloads as [|data payloads IH]; intros s Hon.
  - cbn. repeat split; auto.
    intros before. rewrite app_nil_r. reflexivity.
  - unfold deliveries, decoded. cbn [map flat_map].
    fold (deliveries payloads). fold (decoded payloads).
    rewrite run_cons. cbn [fst snd].
    rewrite client_message_callback.
    destruct (fromBase64 data) as [e|message]; cbn [trace after app].
    + exact (IH s Hon).
    + rewrite (onMessage_online _ _ s Hon). cbn [trace after].
      destruct (IH (applied message s) Hon)
        as (Happ & Hcount & Hstore & Hpend & Hdoc & Hconn).
      repeat split.
      * cbn [app filter is_apply map]. f_equal.
        rewrite filter_app, Happ.
        destruct (y_threw _); reflexivity.
      * intros before.
        rewrite app_assoc, Hcount, count_app.
        destruct (y_threw _); cbn; lia.
      * rewrite count_app, Hstore. destruct (y_threw _); reflexivity.
      * rewrite Hpend. reflexivity.
      * rewrite Hdoc. reflexivity.
      * exact Hconn.
Qed.

(** C2. Offline discard.  With the connected flag false, [onMessage] returns
    at once: nothing is called, the document's content and the version
    counter are what they were, and the whole state is unchanged, so that
    every later run of the event loop (a reconnection included) is the run
    that would have happened had the message never arrived: nothing is left
    behind from which it could be applied later. *)
Theorem offline_message_is_dropped
  (message : Uint8Array) (origin : Origin) (s : State) :
  connected s = false ->
  let r := onMessage message origin s in
  trace r = [] /\
  result r = inr tt /\
  ystate (doc (after r)) = ystate (doc s) /\
  version (after r) = version s /\
  after r = s /\
  forall later : list Event, run later (after r) = run later s.
Proof.
  intros Hoff r. subst r. rewrite (onMessage_offline _ _ s Hoff).
  cbn [trace after result]. repeat split; reflexivity.
Qed.

(** *** Local edits *)

Lemma emit_message (update : Uint8Array) (s : State) :
  emit SigMessage (PBytes update) s =
  {| trace := Emit SigMessage (PBytes update) :: sent ClientMessage update s;
     after := s; result := inr tt |}.
Proof.
  unfold emit, message_listener, sent. monad.
  destruct (channel s); reflexivity.
Qed.

Lemma emit_awareness (update : Uint8Array) (s : State) :
  emit SigAwareness (PBytes update) s =
  {| trace := Emit SigAwareness (PBytes update) ::
              sent ClientAwareness update s;
     after := s; result := inr tt |}.
Proof.
  unfold emit, awareness_listener, sent. monad.
  destruct (channel s); reflexivity.
Qed.

(** With a store, [save] calls it and waits. *)
Lemma save_with_store (st : DocumentStore) (s : State) :
  store s = Some st ->
  save s =
  {| trace := [StoreSet (encodeStateAsUpdate (ystate (doc s)))];
     after := with_pendingSet (S (pendingSet s)) s;
     result := inr tt |}.
Proof.
  intros Hst. unfold save, async. monad. rewrite Hst. reflexivity.
Qed.

(** Without one, it fails in the turn of its caller, who goes on. *)
Lemma save_without_store (s : State) :
  store s = None ->
  save s = {| trace := failed_save s; after := s; result := inr tt |}.
Proof.
  intros Hst.
  destruct s as [d a cfg conn ch sy ri v sto h hooks timers fr el pg ps].
  cbn [store] in Hst. subst sto. destruct el; reflexivity.
Qed.

Lemma onDocumentUpdate_local (update : Uint8Array) (origin : Origin)
  (s : State) :
  origin <> OriginThis ->
  store s = None ->
  onDocumentUpdate update origin s =
  {| trace :=
       Log "document updated locally, broadcasting update to peers" ::
       Emit SigMessage (PBytes update) ::
       sent ClientMessage update s ++ failed_save s;
     after := s;
     result := inr tt |}.
Proof.
  intros Horigin Hst. unfold onDocumentUpdate.
  replace (origin_is_not_this origin) with true
    by (destruct origin; [contradiction | reflexivity | reflexivity]).
  unfold isOnline. monad. rewrite emit_message. monad.
  rewrite (save_without_store s Hst). reflexivity.
Qed.

(** What the handler would do had the field been given a store: one call of
    [set] with the encoding of the whole document, left pending. *)
Lemma onDocumentUpdate_with_store (update : Uint8Array) (origin : Origin)
  (st : DocumentStore) (s : State) :
  origin <> OriginThis ->
  store s = Some st ->
  onDocumentUpdate update origin s =
  {| trace :=
       Log "document updated locally, broadcasting update to peers" ::
       Emit SigMessage (PBytes update) ::
       sent ClientMessage update s ++
       [StoreSet (encodeStateAsUpdate (ystate (doc s)))];
     after := with_pendingSet (S (pendingSet s)) s;
     result := inr tt |}.
Proof.
  intros Horigin Hst. unfold onDocumentUpdate.
  replace (origin_is_not_this origin) with true
    by (destruct origin; [contradiction | reflexivity | reflexivity]).
  unfold isOnline. monad. rewrite emit_message. monad.
  rewrite (save_with_store s Hst). reflexivity.
Qed.

(** *** Maps *)

Lemma map_get_delete_same (V : Type) (k : Z) (m : JsMap V) :
  map_get k (map_delete k m) = None.
Proof.
  induction m as [|[k' v] m IH]; cbn; auto.
  destruct (Z.eqb_spec k' k); cbn; auto.
  destruct (Z.eqb_spec k' k); [contradiction | exact IH].
Qed.

Lemma map_get_delete_other (V : Type) (k c : Z) (m : JsMap V) :
  c <> k -> map_get c (map_delete k m) = map_get c m.
Proof.
  intros Hck. induction m as [|[k' v] m IH]; cbn; auto.
  destruct (Z.eqb_spec k' k); cbn.
  - destruct (Z.eqb_spec k' c); [congruence | exact IH].
  - destruct (Z.eqb_spec k' c); [reflexivity | exact IH].
Qed.

Lemma map_has_keys (V : Type) (k : Z) (m : JsMap V) :
  map_has k m = true <-> In k (keys m).
Proof.
  unfold map_has. induction m as [|[k' v] m IH]; cbn.
  - split; [discriminate | contradiction].
  - destruct (Z.eqb_spec k' k).
    + split; auto.
    + rewrite IH. split; [auto | intros [H|H]; [contradiction | exact H]].
Qed.

(** *** Removing awareness states *)

Section RemoveClients.

Variable self : Z.

Lemma remove_clients_removes (clients : list Z) :
  forall (st : JsMap AwState) (mt : JsMap nat) (c : Z),
    In c clients ->
    map_get c (fst (fst (remove_clients self clients st mt))) = None.
Proof.
  induction clients as [|k cs IH]; intros st mt c Hin; [contradiction|].
  assert (Hkeep : forall (cl : list Z) (st0 : JsMap AwState) (mt0 : JsMap nat),
             map_get c st0 = None ->
             map_get c (fst (fst (remove_clients self cl st0 mt0))) = None).
  { clear. induction cl as [|k cs IH]; intros st0 mt0 Hnone; cbn; auto.
    destruct (map_has k st0).
    - specialize (IH (map_delete k st0)
                     (if Z.eqb k self
                      then match map_get k mt0 with
                           | Some clock => map_set k (S clock) mt0
                           | None => mt0
                           end
                      else mt0)).
      destruct (remove_clients self cs _ _) as [[st2 mt2] removed].
      cbn in *. apply IH.
      destruct (Z.eq_dec c k) as [->|Hne].
      + apply map_get_delete_same.
      + rewrite map_get_delete_other by exact Hne. exact Hnone.
    - apply IH. exact Hnone. }
  cbn [remove_clients].
  destruct (map_has k st) eqn:Hhas.
  - pose proof (Hkeep cs (map_delete k st)
                  (if Z.eqb k self
                   then match map_get k mt with
                        | Some clock => map_set k (S clock) mt
                        | None => mt
                        end
                   else mt)) as Hk.
    pose proof (IH (map_delete k st)
                  (if Z.eqb k self
                   then match map_get k mt with
                        | Some clock => map_set k (S clock) mt
                        | None => mt
                        end
                   else mt) c) as Hc.
    destruct (remove_clients self cs _ _) as [[st2 mt2] removed].
    cbn in *. destruct Hin as [->|Hin].
    + apply Hk. apply map_get_delete_same.
    + apply Hc. exact Hin.
  - destruct Hin as [->|Hin].
    + apply Hkeep. unfold map_has in Hhas.
      destruct (map_get c st); [discriminate | reflexivity].
    + apply IH. exact Hin.
Qed.

Lemma remove_clients_keeps (clients : list Z) :
  forall (st : JsMap AwState) (mt : JsMap nat) (c : Z),
    ~ In c clients ->
    map_get c (fst (fst (remove_clients self clients st mt))) = map_get c st.
Proof.
  induction clients as [|k cs IH]; intros st mt c Hnin; cbn; auto.
  destruct (map_has k st).
  - specialize (IH (map_delete k st)
                   (if Z.eqb k self
                    then match map_get k mt with
                         | Some clock => map_set k (S clock) mt
                         | None => mt
                         end
                    else mt) c).
    destruct (remove_clients self cs _ _) as [[st2 mt2] removed].
    cbn in *. rewrite IH by tauto.
    apply map_get_delete_other. intros ->. apply Hnin. left; reflexivity.
  - apply IH. cbn in Hnin. tauto.
Qed.

(** The clients reported as removed are those of the list that had a state. *)
Lemma remove_clients_reports (clients : list Z) :
  forall (st : JsMap AwState) (mt : JsMap nat) (c : Z),
    In c (snd (remove_clients self clients st mt)) <->
    In c clients /\ In c (keys st).
Proof.
  induction clients as [|k cs IH]; intros st mt c; cbn.
  - tauto.
  - destruct (map_has k st) eqn:Hhas.
    + specialize (IH (map_delete k st)
                     (if Z.eqb k self
                      then match map_get k mt with
                           | Some clock => map_set k (S clock) mt
                           | None => mt
                           end
                      else mt) c).
      destruct (remove_clients self cs _ _) as [[st2 mt2] removed].
      cbn in *. rewrite IH.
      assert (Hk : In k (keys st)) by (apply map_has_keys; exact Hhas).
      destruct (Z.eq_dec c k) as [->|Hne].
      * split; [intros _; split; [left; reflexivity | exact Hk]
               | intros _; left; reflexivity].
      * assert (Hd : In c (keys (map_delete k st)) <-> In c (keys st)).
        { rewrite <- !map_has_keys. unfold map_has.
          rewrite map_get_delete_other by exact Hne. reflexivity. }
        rewrite Hd.
        split; [intros [?|[? ?]]; [congruence | auto]
               | intros [[?|?] ?]; [congruence | auto]].
    + rewrite IH.
      assert (Hk : ~ In k (keys st)) by (rewrite <- map_has_keys; congruence).
      split; [intros [? ?]; auto
             | intros [[->|?] ?]; [contradiction | auto]].
Qed.

End RemoveClients.

(** *** Disconnecting *)

Lemma awareness_fire_update_eq (added updated removed : list Z)
  (origin : Origin) (s : State) :
  awareness_fire_update added updated removed origin s =
  {| trace := announced (added ++ updated ++ removed) s;
     after := s; result := inr tt |}.
Proof.
  unfold awareness_fire_update, announced. monad.
  rewrite (for_each_pure _
             (fun f =>
                match f with
                | FnBound _ MOnAwarenessUpdate =>
                    Emit SigAwareness
                      (PBytes (encodeAwarenessUpdate
                                 (states (awareness s)) (meta (awareness s))
                                 (added ++ updated ++ removed))) ::
                    sent ClientAwareness
                      (encodeAwarenessUpdate
                         (states (awareness s)) (meta (awareness s))
                         (added ++ updated ++ removed)) s
                | _ => []
                end)).
  - reflexivity.
  - intros f _. destruct f as [m|id m|id m]; try reflexivity.
    destruct m; try reflexivity.
    unfold onAwarenessUpdate. monad. rewrite emit_awareness. reflexivity.
Qed.

Lemma removeAwarenessStates_eq (clients : list Z) (origin : Origin)
  (s : State) :
  removeAwarenessStates clients origin s =
  {| trace := match dropped clients s with
              | [] => []
              | _ :: _ =>
                  announced (dropped clients s)
                            (with_awareness (without clients s) s)
              end;
     after := with_awareness (without clients s) s;
     result := inr tt |}.
Proof.
  unfold removeAwarenessStates, without, dropped. monad.
  destruct (remove_clients _ _ _ _) as [[st mt] removed].
  cbn [fst snd]. destruct removed as [|c removed].
  - reflexivity.
  - rewrite awareness_fire_update_eq. reflexivity.
Qed.

Lemma onDisconnect_eq (s : State) :
  onDisconnect s =
  {| trace :=
       Log "disconnected" ::
       (if _synced s
        then [Log "setting sync state to false";
              Emit SigSynced (PBool false); Emit SigSync (PBool false)]
        else []) ++
       Log "set connected flag to false" ::
       match dropped (others s) s with
       | [] => []
       | _ :: _ => announced (dropped (others s) s) (disconnected s)
       end;
     after := disconnected s;
     result := inr tt |}.
Proof.
  unfold onDisconnect, set_synced, isOnline, disconnected. monad.
  destruct (_synced s) eqn:Hs; cbn [Bool.eqb negb andb]; unfold emit; monad;
    cbn [connected with_connected with_synced awareness doc];
    rewrite removeAwarenessStates_eq; reflexivity.
Qed.

Lemma announced_presence (changed : list Z) (s : State) :
  Forall (fun e => is_presence_out e = true /\ is_status e = false)
         (announced changed s).
Proof.
  unfold announced. induction (aw_observers (awareness s)) as [|f l IH].
  - constructor.
  - cbn [flat_map]. apply Forall_app. split; [|exact IH].
    destruct f as [m|id m|id m]; try constructor.
    destruct m; try constructor.
    + split; reflexivity.
    + unfold sent. destruct (channel s); repeat constructor.
Qed.

Lemma filter_all (A : Type) (p : A -> bool) (l : list A) :
  Forall (fun a => p a = true) l -> filter p l = l.
Proof.
  induction 1 as [|a l Ha _ IH]; cbn; [reflexivity|].
  rewrite Ha, IH. reflexivity.
Qed.

Lemma filter_none (A : Type) (p : A -> bool) (l : list A) :
  Forall (fun a => p a = false) l -> filter p l = [].
Proof.
  induction 1 as [|a l Ha _ IH]; cbn; [reflexivity|].
  rewrite Ha, IH. reflexivity.
Qed.

Lemma destroy_returns (s : State) : result (destroy s) = inr tt.
Proof.
  destruct s as [d a cfg conn ch sy ri v sto h hooks timers fr el pg ps].
  destruct ri, h, ch; reflexivity.
Qed.

Lemma others_spec (s : State) (c : Z) :
  In c (others s) <->
  In c (keys (states (awareness s))) /\ c <> clientID (doc s).
Proof.
  unfold others. rewrite filter_In.
  destruct (Z.eqb_spec c (clientID (doc s))); cbn; intuition congruence.
Qed.

(** C10. [onDisconnect] never emits ['status'].  The handler writes false
    into the connected flag and reads the flag back before deciding to emit
    [{status: 'disconnected'}]: the read gives false in every state, so the
    emission is dead, and nothing else the handler does (the [synced]
    setter, the awareness clean-up and the handlers that clean-up wakes)
    emits ['status'] either.  The same holds when the handler runs as the
    listener of ['disconnect']. *)
Theorem disconnect_emits_no_status (s : State) :
  result (isOnline None (after (isOnline (Some false) s))) = inr false /\
  (forall p, ~ In (Emit SigStatus p) (trace (onDisconnect s))) /\
  (forall p, ~ In (Emit SigStatus p) (trace (emit_lifecycle SigDisconnect s))).
Proof.
  assert (Hnone : filter is_status (trace (onDisconnect s)) = []).
  { rewrite onDisconnect_eq. cbn [trace].
    assert (Hann : forall changed s0,
               filter is_status (announced changed s0) = []).
    { intros changed s0. apply filter_none.
      eapply Forall_impl; [|apply announced_presence].
      cbn. intros e [_ He]. exact He. }
    cbn [filter is_status]. rewrite filter_app.
    replace (filter is_status
               (if _synced s
                then [Log "setting sync state to false";
                      Emit SigSynced (PBool false);
                      Emit SigSync (PBool false)]
                else [])) with (@nil Effect)
      by (destruct (_synced s); reflexivity).
    cbn [app filter is_status].
    destruct (dropped (others s) s); [reflexivity | apply Hann]. }
  assert (Hno : forall p, ~ In (Emit SigStatus p) (trace (onDisconnect s))).
  { intros p Hin.
    assert (Hf : In (Emit SigStatus p)
                    (filter is_status (trace (onDisconnect s))))
      by (apply filter_In; split; [exact Hin | reflexivity]).
    rewrite Hnone in Hf. exact Hf. }
  split; [reflexivity | split; [exact Hno|]].
  intros p Hin. apply (Hno p).
  unfold emit_lifecycle in Hin. rewrite bind_tell in Hin.
  cbn [trace app] in Hin.
  destruct Hin as [Habs | Hin]; [discriminate | exact Hin].
Qed.

(** C7, amended.  [onDisconnect] returns normally in every state and leaves
    the synced flag and the connected flag false; no client other than the
    document's own keeps an awareness entry and the document's own entry is
    untouched; a [destroy()] afterwards does not throw.  The removal is
    announced, not silent: the clients removed are exactly the other clients
    that had an entry, and when there is at least one the awareness fires
    ['update'], on which each attached [onAwarenessUpdate] handler emits the
    encoded removal on ['awareness'] and, the channel handle being there,
    triggers it on the channel; when there is none, nothing is emitted or
    triggered about presence. *)
Theorem disconnect_cleanup (s : State) :
  let r := onDisconnect s in
  let s' := after r in
  let removed := dropped (others s) s in
  result r = inr tt /\
  _synced s' = false /\
  connected s' = false /\
  (forall c, c <> clientID (doc s) ->
             map_get c (states (awareness s')) = None) /\
  map_get (clientID (doc s)) (states (awareness s')) =
    map_get (clientID (doc s)) (states (awareness s)) /\
  (forall c, In c removed <->
             In c (keys (states (awareness s))) /\ c <> clientID (doc s)) /\
  filter is_presence_out (trace r) =
    match removed with
    | [] => []
    | _ :: _ => announced removed s'
    end /\
  (forall id name,
      removed <> [] ->
      In (FnBound id MOnAwarenessUpdate) (aw_observers (awareness s)) ->
      channel s = Some name ->
      let update :=
        encodeAwarenessUpdate (states (awareness s')) (meta (awareness s'))
                              removed in
      In (Emit SigAwareness (PBytes update)) (trace r) /\
      In (Trigger ClientAwareness (fromUint8Array update)) (trace r)) /\
  result (destroy s') = inr tt.
Proof.
  intros r s' removed. subst r s' removed.
  rewrite onDisconnect_eq. cbn [trace after result].
  assert (Hfilter :
            filter is_presence_out
              (Log "disconnected" ::
               (if _synced s
                then [Log "setting sync state to false";
                      Emit SigSynced (PBool false);
                      Emit SigSync (PBool false)]
                else []) ++
               Log "set connected flag to false" ::
               match dropped (others s) s with
               | [] => []
               | _ :: _ => announced (dropped (others s) s) (disconnected s)
               end) =
            match dropped (others s) s with
            | [] => []
            | _ :: _ => announced (dropped (others s) s) (disconnected s)
            end).
  { cbn [filter is_presence_out]. rewrite filter_app.
    replace (filter is_presence_out
               (if _synced s
                then [Log "setting sync state to false";
                      Emit SigSynced (PBool false);
                      Emit SigSync (PBool false)]
                else [])) with (@nil Effect)
      by (destruct (_synced s); reflexivity).
    cbn [app filter is_presence_out].
    destruct (dropped (others s) s); [reflexivity|].
    apply filter_all. eapply Forall_impl; [|apply announced_presence].
    cbn. intros e [He _]. exact He. }
  assert (Hobs : aw_observers (awareness (disconnected s)) =
                 aw_observers (awareness s)) by reflexivity.
  assert (Hchan : channel (disconnected s) = channel s)
    by (unfold disconnected; destruct (_synced s); reflexivity).
  assert (Hsent : forall id name,
             dropped (others s) s <> [] ->
             In (FnBound id MOnAwarenessUpdate) (aw_observers (awareness s)) ->
             channel s = Some name ->
             forall e,
               In e (let update :=
                       encodeAwarenessUpdate
                         (states (awareness (disconnected s)))
                         (meta (awareness (disconnected s)))
                         (dropped (others s) s) in
                     [Emit SigAwareness (PBytes update);
                      Trigger ClientAwareness (fromUint8Array update)]) ->
               In e (Log "disconnected" ::
                     (if _synced s
                      then [Log "setting sync state to false";
                            Emit SigSynced (PBool false);
                            Emit SigSync (PBool false)]
                      else []) ++
                     Log "set connected flag to false" ::
                     match dropped (others s) s with
                     | [] => []
                     | _ :: _ =>
                         announced (dropped (others s) s) (disconnected s)
                     end)).
  { intros id name Hne Hobserver Hname e He.
    apply (proj1 (filter_In is_presence_out _ _)).
    rewrite Hfilter.
    destruct (dropped (others s) s) as [|c l] eqn:Hd; [contradiction|].
    unfold announced. apply in_flat_map.
    exists (FnBound id MOnAwarenessUpdate). split.
    - rewrite Hobs. exact Hobserver.
    - unfold sent. rewrite Hchan, Hname. exact He. }
  split; [reflexivity|].
  split; [unfold disconnected; destruct (_synced s) eqn:Hs;
          [reflexivity | exact Hs]|].
  split; [reflexivity|].
  split.
  { intros c Hc. unfold disconnected, without.
    cbn [awareness with_awareness states].
    destruct (in_dec Z.eq_dec c (others s)) as [Hin|Hnin].
    - apply remove_clients_removes. exact Hin.
    - rewrite remove_clients_keeps by exact Hnin.
      destruct (map_get c (states (awareness s))) eqn:Hget; [|reflexivity].
      exfalso. apply Hnin. apply others_spec. split; [|exact Hc].
      apply map_has_keys. unfold map_has. rewrite Hget. reflexivity. }
  split.
  { unfold disconnected, without. cbn [awareness with_awareness states].
    apply remove_clients_keeps. rewrite others_spec. tauto. }
  split.
  { intros c. unfold dropped.
    rewrite remove_clients_reports, others_spec. tauto. }
  split; [exact Hfilter|].
  split; [|apply destroy_returns].
  intros id name Hne Hobserver Hname.
  split; apply (Hsent id name Hne Hobserver Hname); cbn; auto.
Qed.

(** *** Errors from the transport *)

Lemma emit_error (p : Payload) (s : State) :
  emit SigError p s =
  {| trace := [Emit SigError p]; after := s;
     result := if Nat.eqb (errorListeners s) 0
               then inl (unhandled p) else inr tt |}.
Proof.
  unfold emit. monad. destruct (Nat.eqb (errorListeners s) 0); reflexivity.
Qed.

(** C9, the code.  On a subscription error with status 403 the callback
    logs [PUSHER AUTH ERROR], emits ['error'] and is written to emit
    ['disconnect'] next.  When nobody listens on ['error'], which is how the
    constructor leaves the provider, the emitter throws on the first
    emission: the callback ends there, ['disconnect'] is not emitted,
    [onDisconnect] does not run and the state is untouched.  Only when the
    caller has added a listener on ['error'] does ['disconnect'] follow, and
    then [onDisconnect] leaves the provider offline and unsynced.  The
    callback of a generic channel error does the same under the log line
    [PUSHER_ERROR]: the two differ by that line and by nothing else. *)
Theorem auth_failure_report (s : State) :
  let auth := channel_event (SubscriptionError (Some 403%Z)) s in
  let generic := channel_event PusherError s in
  let listened := negb (Nat.eqb (errorListeners s) 0) in
  trace auth =
    Log "PUSHER AUTH ERROR" :: Emit SigError PThis ::
    (if listened
     then EmitLifecycle SigDisconnect :: trace (onDisconnect s) else []) /\
  trace generic =
    Log "PUSHER_ERROR" :: Emit SigError PThis ::
    (if listened
     then EmitLifecycle SigDisconnect :: trace (onDisconnect s) else []) /\
  result auth = (if listened then inr tt else inl UnhandledErrorEvent) /\
  after auth = (if listened then after (onDisconnect s) else s) /\
  (if listened
   then connected (after auth) = false /\ _synced (after auth) = false
   else True) /\
  trace auth <> trace generic /\
  filter (fun e => negb (is_log e)) (trace auth) =
    filter (fun e => negb (is_log e)) (trace generic).
Proof.
  intros auth generic listened. subst auth generic listened.
  unfold channel_event, emit_lifecycle. monad.
  rewrite !emit_error. monad.
  destruct (Nat.eqb (errorListeners s) 0) eqn:Hl; cbn [negb].
  - repeat split; try reflexivity. discriminate.
  - rewrite !onDisconnect_eq.
    repeat split; try reflexivity; try discriminate.
    unfold disconnected. destruct (_synced s) eqn:Hs; [reflexivity | exact Hs].
Qed.

(** A failed subscription with another status, or with none, is ignored. *)
Lemma other_subscription_errors_ignored (status : option Z) (s : State) :
  status <> Some 403%Z ->
  channel_event (SubscriptionError status) s =
    {| trace := []; after := s; result := inr tt |}.
Proof.
  intros Hne. unfold channel_event.
  destruct status as [z|]; [|reflexivity].
  destruct z as [|p|p]; try reflexivity.
  do 9 (destruct p as [p|p|]; try reflexivity).
  contradiction.
Qed.

(** *** The Document Store *)

(** [store.set] rejected: the rejection is caught and emitted on ['error'];
    the ['save'] signal follows when somebody listens on ['error'], and
    otherwise the emitter rethrows the error out of [save]. *)
Lemma save_settled_rejected (error : Exn) (s : State) :
  let r := save_settled (Some error) s in
  trace r =
    Emit SigError (PExn error) ::
    (if Nat.eqb (errorListeners s) 0 then []
     else [Emit SigSave (PVersion (version s))]) /\
  result r = (if Nat.eqb (errorListeners s) 0 then inl error else inr tt).
Proof.
  unfold save_settled. monad. rewrite emit_error. monad.
  cbn [errorListeners with_pendingSet].
  destruct (Nat.eqb (errorListeners s) 0); split; reflexivity.
Qed.

(** [store.get] answered without data: the provider goes online and says
    so. *)
Lemma onConnect_settled_empty (s : State) :
  let r := onConnect_settled (inr None) s in
  connected (after r) = true /\
  In (Emit SigStatus (PStatus "connected")) (trace r).
Proof.
  destruct s as [d a cfg conn ch sy ri v sto h hooks timers fr el pg ps].
  unfold onConnect_settled, isOnline, emit, awareness_listener. monad.
  cbn [negb andb awareness with_connected with_pendingGet channel].
  destruct (map_get _ (states a)); [destruct (map_get _ (meta a))|];
    [destruct ch| |]; cbn; tauto.
Qed.

(** C4, the code at the failing input.  When [store.get] rejects, the
    continuation of [onConnect] throws at the [await]: the promise of
    [onConnect] rejects with the store's error, nothing is logged or emitted
    (no ['error'], no ['status']), and the connected flag keeps its value,
    so a provider that was offline stays offline.  With the field [store]
    undefined, as the constructor leaves it, the fetch fails earlier and to
    the same effect: on a successful subscription [onConnect] logs, throws
    where it reads [get], and its promise is rejected; nothing is emitted
    and the state is untouched. *)
Theorem store_get_rejection_aborts_connect (e : Exn) (s : State) :
  let r := onConnect_settled (inl e) s in
  result r = inl e /\
  trace r = [] /\
  connected (after r) = connected s /\
  _synced (after r) = _synced s /\
  ystate (doc (after r)) = ystate (doc s) /\
  (store s = None ->
   step (FromChannel SubscriptionSucceeded) s =
     {| trace := [Log "PUSHER_SUBSCRIPTION_SUCCEEDED";
                  EmitLifecycle SigConnect;
                  Log "connected"; Rejected (TypeError "get")];
        after := s; result := inr tt |}).
Proof.
  repeat split. intros Hst.
  cbn [step channel_event]. unfold emit_lifecycle, onConnect, async. monad.
  rewrite Hst. reflexivity.
Qed.

(** *** Construction *)

(** C5, amended.  What the constructor does with [resyncInterval]: omitted,
    it arms an interval of 5000 ms; [false], it arms none; a number that is
    not 0 and is below 3000 makes it throw, so that no provider exists, and
    [setInterval] has not been called with that number or with any other; a
    number from 3000 up is the period of the interval, unchanged.  The
    number 0 is falsy: it is taken as [false], the constructor goes through
    and no interval is armed. *)
Theorem resync_interval_configuration (h : Host) (hooks : list Fn)
  (next : nat) (d : Doc) (cfg : PingerchipsProviderConfig) :
  let r := constructor h hooks next d cfg in
  match cfg_resyncInterval cfg with
  | RUndefined => armed 5000 next r
  | RFalse => unarmed r
  | RNumber ms =>
      if Z.eqb ms 0 then unarmed r
      else if Z.ltb ms 3000 then refused r
      else armed ms next r
  end.
Proof.
  destruct cfg as [name table column aw ri].
  cbv zeta. unfold armed, unarmed, refused.
  destruct aw as [a|]; destruct ri as [| |ms]; cbn [cfg_resyncInterval].
  all: try solve [destruct h; repeat split].
  all: construct; unfold resync_truthy, resync_undefined, resync_below;
    destruct (Z.eqb ms 0) eqn:Hz; cbn [negb orb andb when];
    [ destruct h; repeat split | ];
    destruct (Z.ltb ms 3000) eqn:Hlt; cbn [when];
    [ destruct h; repeat split | ];
    unfold resync_or; rewrite Hz; destruct h; repeat split.
Qed.

(** *** The interval and the channel handle

    Only the constructor arms an interval and subscribes, and only
    [destroy] clears the one and releases the other: every other handler
    leaves the three fields below alone, whatever it does otherwise. *)

Lemma keeps_ret (A : Type) (a : A) : keeps (ret a).
Proof. intros s; reflexivity. Qed.

Lemma keeps_tell (l : list Effect) : keeps (tell l).
Proof. intros s; reflexivity. Qed.

Lemma keeps_logger (line : string) : keeps (logger line).
Proof. intros s; reflexivity. Qed.

Lemma keeps_gets (A : Type) (f : State -> A) : keeps (gets f).
Proof. intros s; reflexivity. Qed.

Lemma keeps_throw (A : Type) (e : Exn) : keeps (@throw _ A e).
Proof. intros s; reflexivity. Qed.

Lemma keeps_modify (f : State -> State) :
  (forall s, timer_view (f s) = timer_view s) -> keeps (modify f).
Proof. intros Hf s; apply Hf. Qed.

Lemma keeps_bind (A B : Type) (m : M A) (k : A -> M B) :
  keeps m -> (forall a, keeps (k a)) -> keeps (bind m k).
Proof.
  intros Hm Hk s. unfold bind. pose proof (Hm s) as H1.
  destruct (m s) as [t s' [e|a]]; cbn [after] in *; [exact H1|].
  pose proof (Hk a s') as H2.
  destruct (k a s') as [t' s'' v]; cbn [after] in *.
  rewrite H2. exact H1.
Qed.

Lemma keeps_try_catch (A : Type) (m : M A) (h : Exn -> M A) :
  keeps m -> (forall e, keeps (h e)) -> keeps (try_catch m h).
Proof.
  intros Hm Hh s. unfold try_catch. pose proof (Hm s) as H1.
  destruct (m s) as [t s' [e|a]]; cbn [after] in *; [|exact H1].
  pose proof (Hh e s') as H2.
  destruct (h e s') as [t' s'' v]; cbn [after] in *.
  rewrite H2. exact H1.
Qed.

Lemma keeps_when (b : bool) (m : M unit) : keeps m -> keeps (when b m).
Proof. intros Hm. destruct b; [exact Hm | apply keeps_ret]. Qed.

Lemma keeps_for_each (A : Type) (f : A -> M unit) (l : list A) :
  (forall a, keeps (f a)) -> keeps (for_each f l).
Proof.
  intros Hf. induction l as [|a l IH]; cbn [for_each].
  - apply keeps_ret.
  - apply keeps_bind; [apply Hf | intros _; exact IH].
Qed.

Create HintDb keeps.

#[local] Hint Resolve keeps_ret keeps_tell keeps_logger keeps_gets
  keeps_throw keeps_when : keeps.

(** Takes a handler apart down to the operations of the monad and the
    handlers already dealt with. *)
Ltac keeps_step :=
  match goal with
  | |- keeps (bind _ _) => apply keeps_bind; [|intros ?]
  | |- keeps (try_catch _ _) => apply keeps_try_catch; [|intros ?]
  | |- keeps (for_each _ _) => apply keeps_for_each; intros ?
  | |- keeps (when _ _) => apply keeps_when
  | |- keeps (async _) => unfold async
  | |- keeps (decode _) => unfold decode
  | |- keeps (modify _) => apply keeps_modify; intros ?; reflexivity
  | |- keeps (match ?x with _ => _ end) => destruct x
  | |- keeps _ => solve [auto with keeps]
  end.

Ltac keeps_all := repeat keeps_step.

Lemma keeps_emit (sig : Signal) (p : Payload) : keeps (emit sig p).
Proof.
  unfold emit, message_listener, awareness_listener.
  destruct sig; keeps_all.
Qed.

#[local] Hint Resolve keeps_emit : keeps.

Lemma keeps_isOnline (online : option bool) : keeps (isOnline online).
Proof. unfold isOnline. keeps_all. Qed.

Lemma keeps_save : keeps save.
Proof. unfold save. keeps_all. Qed.

#[local] Hint Resolve keeps_isOnline keeps_save : keeps.

Lemma keeps_save_settled (r : option Exn) : keeps (save_settled r).
Proof. unfold save_settled. keeps_all. Qed.

Lemma keeps_onDocumentUpdate (update : Uint8Array) (origin : Origin) :
  keeps (onDocumentUpdate update origin).
Proof. unfold onDocumentUpdate. keeps_all. Qed.

#[local] Hint Resolve keeps_save_settled keeps_onDocumentUpdate : keeps.

Lemma keeps_doc_fire_update (update : Uint8Array) (origin : Origin) :
  keeps (doc_fire_update update origin).
Proof. unfold doc_fire_update. keeps_all. Qed.

Lemma keeps_onAwarenessUpdate (added updated removed : list Z)
  (origin : Origin) :
  keeps (onAwarenessUpdate added updated removed origin).
Proof. unfold onAwarenessUpdate. keeps_all. Qed.

#[local] Hint Resolve keeps_doc_fire_update keeps_onAwarenessUpdate : keeps.

Lemma keeps_awareness_fire_update (added updated removed : list Z)
  (origin : Origin) :
  keeps (awareness_fire_update added updated removed origin).
Proof. unfold awareness_fire_update. keeps_all. Qed.

#[local] Hint Resolve keeps_awareness_fire_update : keeps.

Lemma keeps_removeAwarenessStates (clients : list Z) (origin : Origin) :
  keeps (removeAwarenessStates clients origin).
Proof.
  unfold removeAwarenessStates. apply keeps_bind; [auto with keeps|].
  intros a. destruct (remove_clients _ _ _ _) as [[st mt] removed].
  keeps_all.
Qed.

Lemma keeps_applyUpdate (update : Uint8Array) (origin : Origin) :
  keeps (applyUpdate update origin).
Proof. unfold applyUpdate. keeps_all. Qed.

#[local] Hint Resolve keeps_removeAwarenessStates keeps_applyUpdate : keeps.

Lemma keeps_onConnect : keeps onConnect.
Proof. unfold onConnect. keeps_all. Qed.

Lemma keeps_onConnect_settled (r : Exn + option Uint8Array) :
  keeps (onConnect_settled r).
Proof. unfold onConnect_settled. keeps_all. Qed.

Lemma keeps_set_synced (state : bool) : keeps (set_synced state).
Proof. unfold set_synced. keeps_all. Qed.

#[local] Hint Resolve keeps_onConnect keeps_onConnect_settled
  keeps_set_synced : keeps.

Lemma keeps_onConnecting : keeps onConnecting.
Proof. unfold onConnecting. keeps_all. Qed.

Lemma keeps_onDisconnect : keeps onDisconnect.
Proof. unfold onDisconnect. keeps_all. Qed.

Lemma keeps_onMessage (message : Uint8Array) (origin : Origin) :
  keeps (onMessage message origin).
Proof. unfold onMessage. keeps_all. Qed.

Lemma keeps_onAwareness (message : Uint8Array) : keeps (onAwareness message).
Proof. unfold onAwareness. keeps_all. Qed.

Lemma keeps_onAuth (message : Uint8Array) : keeps (onAuth message).
Proof. unfold onAuth. keeps_all. Qed.

#[local] Hint Resolve keeps_onConnecting keeps_onDisconnect keeps_onMessage
  keeps_onAwareness keeps_onAuth : keeps.

Lemma keeps_resync_tick : keeps resync_tick.
Proof. unfold resync_tick. keeps_all. Qed.

Lemma keeps_emit_lifecycle (sig : Lifecycle) : keeps (emit_lifecycle sig).
Proof. unfold emit_lifecycle. keeps_all. Qed.

#[local] Hint Resolve keeps_resync_tick keeps_emit_lifecycle : keeps.

Lemma keeps_channel_event (e : PusherEvent) : keeps (channel_event e).
Proof.
  unfold channel_event. destruct e as [data|data| |status|]; keeps_all.
Qed.

#[local] Hint Resolve keeps_channel_event : keeps.

(** Every turn of the event loop other than a call of [destroy]. *)
Lemma step_keeps (ev : Event) :
  ev <> FromCaller CallDestroy -> keeps (step ev).
Proof.
  intros Hev. destruct ev as [e|id|d' delta origin|st mt added updated removed
                              origin|r|r|c]; cbn [step]; keeps_all.
  destruct c; cbn [call]; try congruence; keeps_all.
Qed.

Lemma step_keeps_or_destroy (ev : Event) :
  keeps (step ev) \/ ev = FromCaller CallDestroy.
Proof.
  destruct ev as [e|id|d' delta origin|st mt added updated removed origin
                  |r|r|c];
    try (left; apply step_keeps; discriminate).
  destruct c; try (left; apply step_keeps; discriminate).
  right; reflexivity.
Qed.

(** What [destroy] changes. *)
Lemma destroy_effect (s : State) :
  let s' := after (destroy s) in
  liveTimers s' =
    match resyncInterval s with
    | Some id => filter (fun t => negb (Nat.eqb t id)) (liveTimers s)
    | None => liveTimers s
    end /\
  resyncInterval s' = resyncInterval s /\
  channel s' = None /\
  doc_observers (doc s') =
    off (FnMethod MOnDocumentUpdate) (doc_observers (doc s)) /\
  aw_observers (awareness s') =
    off (FnMethod MOnAwarenessUpdate) (aw_observers (awareness s)) /\
  unloadHooks s' =
    match host s with
    | HostBrowser =>
        off (FnMethod MRemoveSelfFromAwarenessOnUnload) (unloadHooks s)
    | HostNode =>
        off (FnArrow (fresh s) MRemoveSelfFromAwarenessOnUnload)
            (unloadHooks s)
    | HostBare => unloadHooks s
    end.
Proof.
  destruct s as [d a cfg conn ch sy ri v sto h hooks timers fr el pg ps].
  destruct ri, h, ch; cbn; repeat split; reflexivity.
Qed.

(** [off] with a method of the prototype leaves the bound functions where
    they are. *)
Lemma off_method_keeps_bound (m : Method) (l : list Fn) :
  Forall (fun f => exists id m', f = FnBound id m') l ->
  off (FnMethod m) l = l.
Proof.
  intros Hl. apply filter_all.
  eapply Forall_impl; [|exact Hl].
  intros f (id & m' & ->). reflexivity.
Qed.

Lemma timer_inv_new (h : Host) (hooks : list Fn) (next : nat) (d : Doc)
  (cfg : PingerchipsProviderConfig) :
  result (constructor h hooks next d cfg) = inr tt ->
  timer_inv (after (constructor h hooks next d cfg)).
Proof.
  destruct cfg as [name table column aw ri]. unfold timer_inv.
  destruct ri as [| |ms].
  - destruct h; intros _ id [<-|[]]; split; discriminate || reflexivity.
  - destruct h; intros _ id [].
  - construct. unfold resync_truthy, resync_undefined, resync_below.
    destruct (Z.eqb ms 0) eqn:Hz; cbn [negb orb andb when].
    + destruct h; intros _ id [].
    + destruct (Z.ltb ms 3000) eqn:Hlt; cbn [when].
      * destruct h; discriminate.
      * destruct h; intros _ id [<-|[]]; split; discriminate || reflexivity.
Qed.

Lemma timer_inv_destroy (s : State) :
  timer_inv s -> timer_inv (after (destroy s)).
Proof.
  intros Hinv id Hin.
  destruct (destroy_effect s) as (Hlive & _).
  rewrite Hlive in Hin. exfalso.
  destruct (resyncInterval s) as [id0|] eqn:Hri.
  - apply filter_In in Hin. destruct Hin as [Hin Hne].
    destruct (Hinv id Hin) as [Hsame _].
    assert (id0 = id) by congruence. subst id0.
    rewrite Nat.eqb_refl in Hne. discriminate.
  - destruct (Hinv id Hin) as [Hsame _]. congruence.
Qed.

Lemma timer_inv_reachable (s : State) : reachable s -> timer_inv s.
Proof.
  induction 1 as [h hooks next d cfg Hok | s ev Hreach IH Hen].
  - apply timer_inv_new. exact Hok.
  - destruct (step_keeps_or_destroy ev) as [Hkeeps | ->].
    + intros id Hin. pose proof (Hkeeps s) as Hview.
      unfold timer_view in Hview. injection Hview as Hl Hr Hc.
      rewrite Hl in Hin. rewrite Hr, Hc. apply IH. exact Hin.
    + apply timer_inv_destroy. exact IH.
Qed.

(** C6. The resync tick.  Whenever the interval of a provider fires, in any
    state the provider can be in, the callback encodes the whole document
    and emits it on ['message'] and triggers it on the channel's
    [client-message] event; it looks at nothing else (not at the connected
    flag, not at what was edited), changes nothing and does not throw, so
    the next tick does the same when no edit came in between.  The channel
    receives the snapshot twice per tick: once from the provider's own
    listener of ['message'] and once from the callback itself. *)
Theorem resync_tick_rebroadcasts (s : State) (id : nat) :
  reachable s ->
  enabled (TimerFires id) s = true ->
  let r := step (TimerFires id) s in
  let full := encodeStateAsUpdate (ystate (doc s)) in
  trace r =
    [Log "resyncing (resync interval elapsed)";
     Emit SigMessage (PBytes full);
     Trigger ClientMessage (fromUint8Array full);
     Trigger ClientMessage (fromUint8Array full)] /\
  result r = inr tt /\
  after r = s /\
  trace (step (TimerFires id) (after r)) = trace r.
Proof.
  intros Hreach Hen r full. subst r full.
  cbn [enabled] in Hen. apply existsb_exists in Hen.
  destruct Hen as (t & Hin & Heq). apply Nat.eqb_eq in Heq. subst t.
  destruct (timer_inv_reachable Hreach id Hin) as [_ Hch].
  assert (Htick :
            resync_tick s =
            {| trace :=
                 [Log "resyncing (resync interval elapsed)";
                  Emit SigMessage
                    (PBytes (encodeStateAsUpdate (ystate (doc s))));
                  Trigger ClientMessage
                    (fromUint8Array (encodeStateAsUpdate (ystate (doc s))));
                  Trigger ClientMessage
                    (fromUint8Array (encodeStateAsUpdate (ystate (doc s))))];
               after := s; result := inr tt |}).
  { unfold resync_tick. monad. rewrite emit_message. monad. unfold sent.
    destruct (channel s); [reflexivity | contradiction]. }
  cbn [step]. rewrite Htick. cbn [trace after result].
  rewrite Htick. repeat split; reflexivity.
Qed.

(** *** Teardown *)

(** The listeners the constructor registered on the document and on the
    awareness are bound functions: the [off] calls of [destroy], made with
    the methods themselves, do not find them. *)
Lemma destroy_keeps_bound_listeners (s : State) (id : nat) (m : Method) :
  (In (FnBound id m) (doc_observers (doc s)) ->
   In (FnBound id m) (doc_observers (doc (after (destroy s))))) /\
  (In (FnBound id m) (aw_observers (awareness s)) ->
   In (FnBound id m) (aw_observers (awareness (after (destroy s))))).
Proof.
  destruct (destroy_effect s) as (_ & _ & _ & Hdoc & Haw & _).
  rewrite Hdoc, Haw. unfold off.
  split; intros Hin; apply filter_In; split; auto.
Qed.

(** What [destroy] does achieve, in every state: the interval it holds no
    longer fires, the channel handle is released, and neither this call nor
    a second one throws. *)
Lemma destroy_releases (s : State) :
  let s' := after (destroy s) in
  (forall id, resyncInterval s = Some id -> ~ In id (liveTimers s')) /\
  channel s' = None /\
  result (destroy s) = inr tt /\
  result (destroy s') = inr tt.
Proof.
  destruct (destroy_effect s) as (Hlive & _ & Hch & _).
  cbn zeta. rewrite Hlive, Hch, !destroy_returns.
  repeat split; auto.
  intros id Hid Hin. rewrite Hid in Hin.
  apply filter_In in Hin. destruct Hin as [_ Hne].
  rewrite Nat.eqb_refl in Hne. discriminate.
Qed.

(** *** Relations every handler obeys

    A relation that holds of a step that does nothing and composes along a
    sequence of steps holds of a handler as soon as it holds of the writes
    and calls the handler is made of. *)

Section Obeys.

Variable R : State -> list Effect -> State -> Prop.
Hypothesis R_refl : forall s, R s [] s.
Hypothesis R_trans :
  forall s t s' t' s'', R s t s' -> R s' t' s'' -> R s (t ++ t') s''.

Lemma obeys_ret (A : Type) (a : A) : obeys R (ret a).
Proof. intros s. apply R_refl. Qed.

Lemma obeys_gets (A : Type) (f : State -> A) : obeys R (gets f).
Proof. intros s. apply R_refl. Qed.

Lemma obeys_throw (A : Type) (e : Exn) : obeys R (@throw _ A e).
Proof. intros s. apply R_refl. Qed.

Lemma obeys_tell (l : list Effect) : (forall s, R s l s) -> obeys R (tell l).
Proof. intros Hl s. apply Hl. Qed.

Lemma obeys_modify (f : State -> State) :
  (forall s, R s [] (f s)) -> obeys R (modify f).
Proof. intros Hf s. apply Hf. Qed.

Lemma obeys_bind (A B : Type) (m : M A) (k : A -> M B) :
  obeys R m -> (forall a, obeys R (k a)) -> obeys R (bind m k).
Proof.
  intros Hm Hk s. unfold bind. pose proof (Hm s) as H1.
  destruct (m s) as [t s' [e|a]]; cbn [trace after] in *; [exact H1|].
  pose proof (Hk a s') as H2.
  destruct (k a s') as [t' s'' v]; cbn [trace after] in *.
  eapply R_trans; eassumption.
Qed.

Lemma obeys_try_catch (A : Type) (m : M A) (h : Exn -> M A) :
  obeys R m -> (forall e, obeys R (h e)) -> obeys R (try_catch m h).
Proof.
  intros Hm Hh s. unfold try_catch. pose proof (Hm s) as H1.
  destruct (m s) as [t s' [e|a]]; cbn [trace after] in *; [|exact H1].
  pose proof (Hh e s') as H2.
  destruct (h e s') as [t' s'' v]; cbn [trace after] in *.
  eapply R_trans; eassumption.
Qed.

Lemma obeys_when (b : bool) (m : M unit) : obeys R m -> obeys R (when b m).
Proof. intros Hm. destruct b; [exact Hm | apply obeys_ret]. Qed.

Lemma obeys_for_each (A : Type) (f : A -> M unit) (l : list A) :
  (forall a, obeys R (f a)) -> obeys R (for_each f l).
Proof.
  intros Hf. induction l as [|a l IH]; cbn [for_each].
  - apply obeys_ret.
  - apply obeys_bind; [apply Hf | intros _; exact IH].
Qed.

(** A read whose value the rest depends on. *)
Lemma obeys_reading (A B : Type) (f : State -> A) (k : A -> M B) :
  (forall s, R s (trace (k (f s) s)) (after (k (f s) s))) ->
  obeys R (bind (gets f) k).
Proof. intros Hk s. rewrite bind_gets. apply Hk. Qed.

(** A write, then a handler. *)
Lemma after_write (B : Type) (f : State -> State) (k : M B) (s : State) :
  R s [] (f s) -> obeys R k -> R s (trace (k (f s))) (after (k (f s))).
Proof.
  intros Hf Hk. change (trace (k (f s))) with ([] ++ trace (k (f s))).
  eapply R_trans; [exact Hf | apply Hk].
Qed.

(** A run obeys what each of its turns obeys. *)
Lemma run_obeys (evs : list Event) :
  (forall ev, In ev evs -> obeys R (step ev)) ->
  forall s, R s (fst (run evs s)) (snd (run evs s)).
Proof.
  induction evs as [|ev evs IH]; intros Hev s.
  - apply R_refl.
  - rewrite run_cons. cbn [fst snd].
    eapply R_trans.
    + apply (Hev ev). left; reflexivity.
    + apply IH. intros ev' Hin. apply Hev. right; exact Hin.
Qed.

End Obeys.

Create HintDb handlers.

#[local] Hint Unfold emit message_listener awareness_listener isOnline save
  save_settled onDocumentUpdate doc_fire_update onAwarenessUpdate
  awareness_fire_update removeAwarenessStates
  removeSelfFromAwarenessOnUnload applyUpdate onConnect onConnect_settled
  disconnect set_synced onConnecting onDisconnect onMessage onAwareness
  onAuth clearInterval destroy resync_tick emit_lifecycle channel_event
  call step alloc async decode removeSelfFromAwarenessOnUnload_on this_doc
  : handlers.

(** Takes a handler apart: [leaf] settles the writes and calls, [known] the
    handlers that are dealt with by a lemma of their own; the others are
    unfolded. *)
Ltac obeys_step refl trans leaf known :=
  cbv beta iota;
  match goal with
  | |- obeys _ _ => solve [known]
  | |- obeys _ (bind _ _) => apply obeys_bind; [exact trans| |intros ?]
  | |- obeys _ (try_catch _ _) =>
      apply obeys_try_catch; [exact trans| |intros ?]
  | |- obeys _ (for_each _ _) =>
      apply obeys_for_each; [exact refl|exact trans|intros ?]
  | |- obeys _ (when _ _) => apply obeys_when; [exact refl|]
  | |- obeys _ (ret _) => apply obeys_ret; exact refl
  | |- obeys _ (gets _) => apply obeys_gets; exact refl
  | |- obeys _ (throw _) => apply obeys_throw; exact refl
  | |- obeys _ (tell _) => apply obeys_tell; intros ?; leaf
  | |- obeys _ (logger _) => apply obeys_tell; intros ?; leaf
  | |- obeys _ (modify _) => apply obeys_modify; intros ?; leaf
  | |- obeys _ (match ?x with _ => _ end) => destruct x
  | |- obeys _ _ => progress autounfold with handlers
  end.

(** *** The version counter *)

Lemma counts_refl (s : State) : counts_applies s [] s.
Proof. unfold counts_applies. cbn. lia. Qed.

Lemma counts_trans (s : State) (t : list Effect) (s' : State)
  (t' : list Effect) (s'' : State) :
  counts_applies s t s' -> counts_applies s' t' s'' ->
  counts_applies s (t ++ t') s''.
Proof. unfold counts_applies. rewrite count_app. lia. Qed.

Ltac counts_leaf := unfold counts_applies, count; cbn; lia.

Lemma applyUpdate_counts (update : Uint8Array) (origin : Origin) :
  obeys counts_applies (applyUpdate update origin).
Proof.
  intros s. unfold applyUpdate.
  rewrite bind_gets, bind_modify, bind_tell. cbn [trace after].
  match goal with
  | |- counts_applies _ (_ ++ trace (?m ?s1)) _ =>
      assert (Hrest : obeys counts_applies m)
        by (repeat obeys_step counts_refl counts_trans
                     ltac:(counts_leaf) ltac:(fail));
      specialize (Hrest s1)
  end.
  revert Hrest. unfold counts_applies. rewrite count_app.
  cbn [version with_version]. unfold count at 2. cbn. lia.
Qed.

Lemma step_counts (ev : Event) : obeys counts_applies (step ev).
Proof.
  destruct ev as [e|id|d' delta origin|st mt added updated removed origin
                  |r|r|c]; cbn [step];
    [destruct e as [data|data| |status|]; cbn [channel_event]| | | | | |
     destruct c; cbn [call]];
    repeat obeys_step counts_refl counts_trans ltac:(counts_leaf)
             ltac:(apply applyUpdate_counts).
Qed.


(** X2. The version counter counts the calls of [Y.applyUpdate]: over any
    run of the event loop it grows by exactly the number of applications
    made, whether they succeeded or threw, and by nothing else; it never
    goes down. *)
Theorem version_counts_applies (evs : list Event) (s : State) :
  version (snd (run evs s)) =
    (version s + Z.of_nat (count is_apply (fst (run evs s))))%Z /\
  (version s <= version (snd (run evs s)))%Z.
Proof.
  assert (H : counts_applies s (fst (run evs s)) (snd (run evs s))).
  { apply run_obeys; [exact counts_refl | exact counts_trans|].
    intros ev _. apply step_counts. }
  unfold counts_applies in H. split; [exact H | lia].
Qed.

(** *** The synced flag *)

Lemma unsynced_refl (s : State) : stays_unsynced s [] s.
Proof. intros Hs. split; [exact Hs | constructor]. Qed.

Lemma unsynced_trans (s : State) (t : list Effect) (s' : State)
  (t' : list Effect) (s'' : State) :
  stays_unsynced s t s' -> stays_unsynced s' t' s'' ->
  stays_unsynced s (t ++ t') s''.
Proof.
  intros H1 H2 Hs. destruct (H1 Hs) as [Hs' Ht].
  destruct (H2 Hs') as [Hs'' Ht'].
  split; [exact Hs'' | apply Forall_app; split; assumption].
Qed.

Ltac unsynced_leaf :=
  let Hs := fresh "Hs" in
  intros Hs; split; [first [exact Hs | reflexivity] | repeat constructor].

Lemma set_synced_false_unsynced : obeys stays_unsynced (set_synced false).
Proof.
  intros s Hs. unfold set_synced. rewrite bind_gets, Hs.
  split; [exact Hs | constructor].
Qed.

Lemma step_unsynced (ev : Event) :
  ev <> FromCaller (CallSetSynced true) -> obeys stays_unsynced (step ev).
Proof.
  intros Hev.
  destruct ev as [e|id|d' delta origin|st mt added updated removed origin
                  |r|r|c]; cbn [step];
    [destruct e as [data|data| |status|]; cbn [channel_event]| | | | | |
     destruct c as [| | | | | |[|]| | |]; cbn [call]; try congruence];
    repeat obeys_step unsynced_refl unsynced_trans ltac:(unsynced_leaf)
             ltac:(apply set_synced_false_unsynced).
Qed.

(** X1. The provider never marks itself synced.  From a state in which the
    synced flag is false (the state the constructor leaves), over any run in
    which the caller does not assign [synced = true], the flag stays false
    and neither ['synced'] nor ['sync'] is ever emitted: connecting, applying
    the store's snapshot and applying remote messages do not touch it, and
    [onDisconnect] only ever writes false. *)
Theorem never_synced_by_itself (evs : list Event) (s : State) :
  _synced s = false ->
  ~ In (FromCaller (CallSetSynced true)) evs ->
  _synced (snd (run evs s)) = false /\
  Forall (fun e => is_sync_signal e = false) (fst (run evs s)).
Proof.
  intros Hs Hnot.
  assert (H : stays_unsynced s (fst (run evs s)) (snd (run evs s))).
  { apply run_obeys; [exact unsynced_refl | exact unsynced_trans|].
    intros ev Hin. apply step_unsynced. intros ->. exact (Hnot Hin). }
  exact (H Hs).
Qed.

(** *** A released channel *)

Lemma released_refl (s : State) : stays_released s [] s.
Proof. intros Hs. split; [exact Hs | constructor]. Qed.

Lemma released_trans (s : State) (t : list Effect) (s' : State)
  (t' : list Effect) (s'' : State) :
  stays_released s t s' -> stays_released s' t' s'' ->
  stays_released s (t ++ t') s''.
Proof.
  intros H1 H2 Hs. destruct (H1 Hs) as [Hs' Ht].
  destruct (H2 Hs') as [Hs'' Ht'].
  split; [exact Hs'' | apply Forall_app; split; assumption].
Qed.

Ltac released_leaf :=
  let Hs := fresh "Hs" in
  intros Hs; split; [first [exact Hs | reflexivity] | repeat constructor].

(** A handler that reads the channel handle first and finds none. *)
Ltac released_read :=
  let s := fresh "s" in
  let Hs := fresh "Hs" in
  apply obeys_reading; intros s Hs; rewrite Hs;
  split; [exact Hs | constructor].

Lemma step_released (ev : Event) : obeys stays_released (step ev).
Proof.
  destruct ev as [e|id|d' delta origin|st mt added updated removed origin
                  |r|r|c]; cbn [step];
    [destruct e as [data|data| |status|]; cbn [channel_event]| | | | | |
     destruct c; cbn [call]];
    repeat obeys_step released_refl released_trans ltac:(released_leaf)
             ltac:(released_read).
Qed.

(** X10. After [destroy()] the transport is left alone for good: whatever
    comes next (edits of the document, presence changes, store answers,
    ticks still queued, calls of the public methods), the channel handle
    stays released and the provider neither subscribes, nor triggers, nor
    disconnects; it has no way of subscribing again. *)
Theorem destroyed_provider_leaves_the_channel (s : State) (evs : list Event) :
  let s' := after (destroy s) in
  channel (snd (run evs s')) = None /\
  Forall (fun e => uses_channel e = false) (fst (run evs s')).
Proof.
  cbv zeta.
  assert (H : stays_released (after (destroy s))
                (fst (run evs (after (destroy s))))
                (snd (run evs (after (destroy s))))).
  { apply run_obeys; [exact released_refl | exact released_trans|].
    intros ev _. apply step_released. }
  apply H. destruct (destroy_effect s) as (_ & _ & Hch & _). exact Hch.
Qed.


(** *** Remote messages and presence *)

(** X6. A remote message that does not apply.  [onMessage] returns
    normally in every state; while online it has bumped the version counter
    by one even when [Y.applyUpdate] threw, in which case the exception is
    logged and nothing else is; offline the counter is untouched.  The
    connected flag is never changed by a message.  The callback of the
    channel decodes the payload before it calls [onMessage], outside the
    [try]: on a payload that does not decode it throws the decoder's error
    to the transport, applies nothing and leaves the state as it was; on
    any other it does what [onMessage] does. *)
Theorem remote_apply_failure_is_contained (message : Uint8Array)
  (origin : Origin) (data : string) (s : State) :
  let r := onMessage message origin s in
  let callback := step (FromChannel (ClientMessageData data)) s in
  result r = inr tt /\
  version (after r) = (if connected s then version s + 1 else version s)%Z /\
  filter is_log (trace r) =
    (if connected s
     then match y_threw (Y_applyUpdate (ystate (doc s)) message) with
          | Some e => [LogExn e]
          | None => []
          end
     else []) /\
  connected (after r) = connected s /\
  callback =
    match fromBase64 data with
    | inr bytes => onMessage bytes OriginThis s
    | inl e => {| trace := []; after := s; result := inl e |}
    end.
Proof.
  cbv zeta. rewrite client_message_callback.
  destruct (connected s) eqn:Hon.
  - rewrite (onMessage_online message origin s Hon). cbn [trace after result].
    repeat split; try assumption.
    destruct (y_threw _); reflexivity.
  - rewrite (onMessage_offline message origin s Hon). cbn [trace after result].
    repeat split; assumption.
Qed.

(** X5. Presence is echoed, and a message that cannot be read is thrown
    back.  A presence message is applied in every state, online or not, and
    the awareness holds what the library made of it.  When the library reads
    it through and it changes something, the awareness fires ['update'], on
    which every attached [onAwarenessUpdate] handler (it does not look at
    the origin) emits the encoding of the changed clients on ['awareness'],
    which the provider's listener triggers on the channel: what came in goes
    out again; when it changes nothing, nothing is emitted.  When the
    library throws on the message, [onAwareness], which has no [try], throws
    the same exception to its caller and nothing is emitted. *)
Theorem remote_presence_is_rebroadcast (message : Uint8Array) (s : State) :
  let a := awareness s in
  let r := applyAwarenessUpdate_lib (states a) (meta a) message in
  let changed := a_added r ++ a_updated r ++ a_removed r in
  let out := onAwareness message s in
  states (awareness (after out)) = a_states r /\
  meta (awareness (after out)) = a_meta r /\
  aw_observers (awareness (after out)) = aw_observers a /\
  connected (after out) = connected s /\
  match a_threw r with
  | Some e => result out = inl e /\ trace out = []
  | None =>
      result out = inr tt /\
      trace out =
        match changed with
        | [] => []
        | _ :: _ => announced changed (after out)
        end
  end.
Proof.
  cbv zeta. unfold onAwareness. rewrite bind_gets, bind_modify.
  destruct (a_threw _) as [e|].
  - repeat split.
  - destruct (a_added _ ++ a_updated _ ++ a_removed _) eqn:Hchanged.
    + repeat split.
    + rewrite awareness_fire_update_eq. cbn [trace after result].
      rewrite Hchanged. repeat split.
Qed.

(** *** The synced flag's setter *)

(** X12. Assigning [synced] signals changes only.  The flag ends as
    assigned; when the value differs from the current one the setter logs
    and emits ['synced'] and then ['sync'], each with the new value, and when
    it is the current value it does nothing at all; so assigning the same
    value a second time is silent.  It never throws. *)
Theorem synced_setter_signals_changes (state : bool) (s : State) :
  let r := set_synced state s in
  result r = inr tt /\
  _synced (after r) = state /\
  filter is_signal (trace r) =
    (if Bool.eqb (_synced s) state then []
     else [Emit SigSynced (PBool state); Emit SigSync (PBool state)]) /\
  set_synced state (after r) =
    {| trace := []; after := after r; result := inr tt |}.
Proof.
  destruct s as [d a cfg conn ch sy ri v sto h hooks timers fr el pg ps].
  destruct sy, state; repeat split.
Qed.

(** *** Leaving the awareness *)

(** Run on the provider, the method finds the document. *)
Lemma removeSelfFromAwarenessOnUnload_eq (s : State) :
  removeSelfFromAwarenessOnUnload s =
  removeAwarenessStates [clientID (doc s)] (OriginOther "window unload") s.
Proof.
  unfold removeSelfFromAwarenessOnUnload, removeSelfFromAwarenessOnUnload_on,
    this_doc, bind, gets, ret.
  cbv beta iota.
  destruct (removeAwarenessStates _ _ s) as [t s' v]. reflexivity.
Qed.

(** X11. [removeSelfFromAwarenessOnUnload] removes the entry of the
    document's client and no other.  When there was such an entry the
    awareness fires ['update'] and the removal is announced like any other
    presence change; when there was none nothing happens.  It never
    throws. *)
Theorem remove_self_from_awareness (s : State) :
  let c := clientID (doc s) in
  let r := removeSelfFromAwarenessOnUnload s in
  result r = inr tt /\
  map_get c (states (awareness (after r))) = None /\
  (forall k, k <> c ->
             map_get k (states (awareness (after r))) =
             map_get k (states (awareness s))) /\
  trace r =
    (if map_has c (states (awareness s))
     then announced [c] (after r) else []).
Proof.
  cbv zeta.
  rewrite removeSelfFromAwarenessOnUnload_eq, removeAwarenessStates_eq.
  cbn [trace after result].
  unfold without, dropped. cbn [awareness with_awareness states].
  split; [reflexivity|]. split.
  { apply remove_clients_removes. left; reflexivity. }
  split.
  { intros k Hk. apply remove_clients_keeps. intros [Heq|[]]. congruence. }
  cbn [remove_clients].
  destruct (map_has (clientID (doc s)) (states (awareness s))) eqn:Hhas;
    reflexivity.
Qed.


(** *** A provider without store

    The class declares the field [store] and assigns it nowhere: in every
    state a provider goes through the field is undefined, so that no store
    is ever called and no answer of a store is ever awaited. *)

Lemma bind_told (B : Type) (l : list Effect) (k : unit -> M B) (s : State) :
  bind (tell l) k s = prepend l (k tt s).
Proof. reflexivity. Qed.

Lemma bind_known (A B : Type) (m : M A) (k : A -> M B) (s : State)
  (t : list Effect) (s' : State) (a : A) :
  m s = {| trace := t; after := s'; result := inr a |} ->
  bind m k s = prepend t (k a s').
Proof. intros Hm. unfold bind. rewrite Hm. reflexivity. Qed.

Lemma trace_prepend (A : Type) (l : list Effect) (r : Res A) :
  trace (prepend l r) = l ++ trace r.
Proof. destruct r; reflexivity. Qed.

(** Without a store [onConnect] ends where it reads [get]: the promise it
    returned to the emitter is rejected. *)
Lemma onConnect_without_store (s : State) :
  store s = None ->
  onConnect s =
  {| trace := [Log "connected"; Rejected (TypeError "get")];
     after := s; result := inr tt |}.
Proof.
  intros Hst. unfold onConnect, async. monad. rewrite Hst. reflexivity.
Qed.

Lemma storeless_refl (s : State) : stays_storeless s [] s.
Proof. intros Hs. split; [exact Hs | constructor]. Qed.

Lemma storeless_trans (s : State) (t : list Effect) (s' : State)
  (t' : list Effect) (s'' : State) :
  stays_storeless s t s' -> stays_storeless s' t' s'' ->
  stays_storeless s (t ++ t') s''.
Proof.
  intros H1 H2 Hs. destruct (H1 Hs) as [Hs' Ht].
  destruct (H2 Hs') as [Hs'' Ht'].
  split; [exact Hs'' | apply Forall_app; split; assumption].
Qed.

(** A write to a field other than the three, or a call that is not a call
    of the store. *)
Ltac storeless_leaf :=
  let Hs := fresh "Hs" in
  intros Hs; split; [exact Hs | repeat constructor].

(** The write that takes a settled call off the count of those awaited. *)
Ltac storeless_settle :=
  let s := fresh "s" in
  let H1 := fresh "H" in
  let H2 := fresh "H" in
  let H3 := fresh "H" in
  intros (H1 & H2 & H3); split; [|constructor];
  repeat split; cbn [store pendingGet pendingSet with_pendingGet
                     with_pendingSet];
  rewrite ?H2, ?H3; auto.

Lemma save_storeless : obeys stays_storeless save.
Proof.
  intros s Hs. rewrite (save_without_store s (proj1 Hs)). cbn [trace after].
  split; [exact Hs|]. unfold failed_save.
  destruct (Nat.eqb (errorListeners s) 0); repeat constructor.
Qed.

Lemma onConnect_storeless : obeys stays_storeless onConnect.
Proof.
  intros s Hs. rewrite (onConnect_without_store s (proj1 Hs)).
  cbn [trace after]. split; [exact Hs | repeat constructor].
Qed.

Ltac storeless_known :=
  first [ apply save_storeless | apply onConnect_storeless ].

Ltac storeless_all :=
  repeat obeys_step storeless_refl storeless_trans ltac:(storeless_leaf)
           ltac:(storeless_known).

Lemma save_settled_storeless (r : option Exn) :
  obeys stays_storeless (save_settled r).
Proof.
  unfold save_settled. apply obeys_reading. intros s. rewrite bind_modify.
  apply after_write; [exact storeless_trans | storeless_settle|].
  storeless_all.
Qed.

Lemma onConnect_settled_storeless (r : Exn + option Uint8Array) :
  obeys stays_storeless (onConnect_settled r).
Proof.
  unfold onConnect_settled. apply obeys_reading. intros s.
  rewrite bind_modify.
  apply after_write; [exact storeless_trans | storeless_settle|].
  storeless_all.
Qed.

Lemma step_storeless (ev : Event) : obeys stays_storeless (step ev).
Proof.
  destruct ev as [e|id|d' delta origin|st mt added updated removed origin
                  |r|r|c]; cbn [step];
    [destruct e as [data|data| |status|]; cbn [channel_event]| | | | | |
     destruct c; cbn [call]];
    repeat obeys_step storeless_refl storeless_trans ltac:(storeless_leaf)
      ltac:(first [ storeless_known
                  | apply save_settled_storeless
                  | apply onConnect_settled_storeless ]).
Qed.

Lemma constructor_storeless (h : Host) (hooks : list Fn) (next : nat)
  (d : Doc) (cfg : PingerchipsProviderConfig) :
  storeless (after (constructor h hooks next d cfg)).
Proof.
  assert (Hbody : obeys stays_storeless
                    (bind (tell (fst (awareness_or_new d cfg)))
                          (fun _ => constructor_body))).
  { unfold constructor_body, connect.
    repeat obeys_step storeless_refl storeless_trans ltac:(storeless_leaf)
             ltac:(fail).
    all: destruct cfg as [name table column [a|] ri]; repeat constructor. }
  apply (Hbody (fields h hooks next d cfg)). repeat split.
Qed.

Lemma reachable_storeless (s : State) : reachable s -> storeless s.
Proof.
  induction 1 as [h hooks next d cfg Hok | s ev Hreach IH Hen].
  - apply constructor_storeless.
  - exact (proj1 (@step_storeless ev s IH)).
Qed.

(** C3, the code.  In every state a provider goes through, when the
    document's ['update'] event carries an origin other than the provider,
    [onDocumentUpdate] emits ['message'] once, with the raw delta, which the
    provider's own listener forwards once to the channel when there is one;
    the persistence that follows does not happen.  [save] reads [set] off
    the field [store], which is undefined: no call of [store.set] is made
    and none is left pending; the error of that read is caught and emitted
    on ['error'], after which ['save'] is emitted when somebody listens on
    ['error'], and otherwise the promise of [save] is rejected.  The handler
    itself returns normally and changes nothing. *)
Theorem local_edit_is_broadcast_but_not_saved
  (update : Uint8Array) (origin : Origin) (s : State) :
  reachable s ->
  origin <> OriginThis ->
  let r := onDocumentUpdate update origin s in
  trace r =
    Log "document updated locally, broadcasting update to peers" ::
    Emit SigMessage (PBytes update) ::
    sent ClientMessage update s ++ failed_save s /\
  filter is_message_signal (trace r) = [Emit SigMessage (PBytes update)] /\
  filter is_channel_trigger (trace r) = sent ClientMessage update s /\
  filter is_persistence (trace r) = [] /\
  In (Emit SigError (PExn (TypeError "set"))) (trace r) /\
  pendingSet (after r) = 0 /\
  after r = s /\
  result r = inr tt.
Proof.
  intros Hreach Horigin r. subst r.
  destruct (reachable_storeless Hreach) as (Hst & _ & Hps).
  rewrite (onDocumentUpdate_local update s Horigin Hst).
  cbn [trace after result]. unfold sent, failed_save.
  destruct (channel s); destruct (Nat.eqb (errorListeners s) 0); cbn;
    repeat split; auto.
Qed.

(** X13. The store is never called.  From any state a provider goes
    through and over any run of the event loop, the field [store] stays
    undefined, neither [store.get] nor [store.set] is called, and no call is
    awaited, so that no answer of a store is ever delivered.  On a
    successful subscription [onConnect] logs and ends where it reads [get]:
    its promise is rejected and nothing is emitted. *)
Theorem store_is_never_called (evs : list Event) (s : State) :
  reachable s ->
  let t := fst (run evs s) in
  let s' := snd (run evs s) in
  store s' = None /\
  Forall (fun e => is_store_call e = false) t /\
  (forall r, enabled (StoreGetSettles r) s' = false) /\
  (forall r, enabled (StoreSetSettles r) s' = false) /\
  step (FromChannel SubscriptionSucceeded) s =
    {| trace := [Log "PUSHER_SUBSCRIPTION_SUCCEEDED";
                 EmitLifecycle SigConnect;
                 Log "connected"; Rejected (TypeError "get")];
       after := s; result := inr tt |}.
Proof.
  intros Hreach. cbv zeta.
  pose proof (reachable_storeless Hreach) as Hs.
  assert (H : stays_storeless s (fst (run evs s)) (snd (run evs s))).
  { apply run_obeys; [exact storeless_refl | exact storeless_trans|].
    intros ev _. apply step_storeless. }
  destruct (H Hs) as ((Hst & Hpg & Hps) & Ht).
  split; [exact Hst|]. split; [exact Ht|].
  split; [intros r; cbn [enabled]; rewrite Hpg; reflexivity|].
  split; [intros r; cbn [enabled]; rewrite Hps; reflexivity|].
  cbn [step channel_event]. unfold emit_lifecycle, logger.
  rewrite !bind_told, (onConnect_without_store s (proj1 Hs)). reflexivity.
Qed.

(** *** Staying offline *)

Lemma offline_refl (s : State) : stays_offline s [] s.
Proof. intros Hs Hc. split; [exact Hs | split; [exact Hc | constructor]]. Qed.

Lemma offline_trans (s : State) (t : list Effect) (s' : State)
  (t' : list Effect) (s'' : State) :
  stays_offline s t s' -> stays_offline s' t' s'' ->
  stays_offline s (t ++ t') s''.
Proof.
  intros H1 H2 Hs Hc. destruct (H1 Hs Hc) as (Hs' & Hc' & Ht).
  destruct (H2 Hs' Hc') as (Hs'' & Hc'' & Ht').
  split; [exact Hs'' | split; [exact Hc''|]].
  apply Forall_app; split; assumption.
Qed.

Ltac offline_leaf :=
  let Hs := fresh "Hs" in
  let Hc := fresh "Hc" in
  intros Hs Hc;
  split; [exact Hs | split; [first [exact Hc | reflexivity]
                            | repeat constructor]].

Lemma save_offline : obeys stays_offline save.
Proof.
  intros s Hs Hc. rewrite (save_without_store s (proj1 Hs)).
  cbn [trace after]. split; [exact Hs | split; [exact Hc|]].
  unfold failed_save. destruct (Nat.eqb (errorListeners s) 0);
    repeat constructor.
Qed.

Lemma onConnect_offline : obeys stays_offline onConnect.
Proof.
  intros s Hs Hc. rewrite (onConnect_without_store s (proj1 Hs)).
  cbn [trace after]. split; [exact Hs | split; [exact Hc|]].
  repeat constructor.
Qed.

(** Offline, a message is dropped. *)
Lemma onMessage_stays_offline (message : Uint8Array) (origin : Origin) :
  obeys stays_offline (onMessage message origin).
Proof.
  intros s Hs Hc. rewrite (onMessage_offline message origin s Hc).
  cbn [trace after]. split; [exact Hs | split; [exact Hc | constructor]].
Qed.

(** A turn that can be delivered to a provider without store, other than
    the caller's [isOnline(true)]. *)
Lemma step_stays_offline (ev : Event) (s : State) :
  enabled ev s = true ->
  ev <> FromCaller (CallIsOnline (Some true)) ->
  stays_offline s (trace (step ev s)) (after (step ev s)).
Proof.
  intros Hen Hev.
  assert (Hobeys :
            (forall r, ev <> StoreGetSettles r) ->
            (forall r, ev <> StoreSetSettles r) ->
            obeys stays_offline (step ev)).
  { intros Hget Hset.
    destruct ev as [e|id|d' delta origin|st mt added updated removed origin
                    |r|r|c]; cbn [step];
      [destruct e as [data|data| |status|]; cbn [channel_event]| | |
       |exfalso; exact (Hget r eq_refl)|exfalso; exact (Hset r eq_refl)|
       destruct c as [| | | | | | |[[|]|]| |]; cbn [call]; try congruence];
      repeat obeys_step offline_refl offline_trans ltac:(offline_leaf)
        ltac:(first [ apply save_offline | apply onConnect_offline
                    | apply onMessage_stays_offline ]). }
  destruct ev as [e|id|d' delta origin|st mt added updated removed origin
                  |r|r|c];
    try (apply Hobeys; intros; discriminate).
  - intros (_ & Hpg & _) _. cbn [enabled] in Hen. rewrite Hpg in Hen.
    discriminate Hen.
  - intros (_ & _ & Hps) _. cbn [enabled] in Hen. rewrite Hps in Hen.
    discriminate Hen.
Qed.

Lemma run_stays_offline (evs : list Event) :
  forall s,
    deliverable evs s = true ->
    ~ In (FromCaller (CallIsOnline (Some true))) evs ->
    stays_offline s (fst (run evs s)) (snd (run evs s)).
Proof.
  induction evs as [|ev evs IH]; intros s Hdel Hnot.
  - apply offline_refl.
  - cbn [deliverable] in Hdel. apply andb_true_iff in Hdel.
    destruct Hdel as [Hen Hdel].
    rewrite run_cons. cbn [fst snd].
    eapply offline_trans.
    + apply step_stays_offline; [exact Hen|].
      intros ->. apply Hnot. left; reflexivity.
    + apply IH; [exact Hdel|]. intros Hin. apply Hnot. right; exact Hin.
Qed.

(** X3. A provider does not come online by itself.  The connected flag is
    set to true in one place, after the answer of [store.get], and that
    answer never comes.  From any state a provider goes through in which it
    is offline (the constructor leaves such a state), over any run the event
    loop can deliver in which the caller does not call [isOnline(true)], the
    provider stays offline, never emits [{status: 'connected'}] and never
    applies anything to the document: every remote message is dropped. *)
Theorem provider_never_comes_online (evs : list Event) (s : State) :
  reachable s ->
  connected s = false ->
  deliverable evs s = true ->
  ~ In (FromCaller (CallIsOnline (Some true))) evs ->
  connected (snd (run evs s)) = false /\
  Forall (fun e => is_connected_status e = false /\ is_apply e = false)
         (fst (run evs s)).
Proof.
  intros Hreach Hoff Hdel Hnot.
  destruct (@run_stays_offline evs s Hdel Hnot
              (reachable_storeless Hreach) Hoff) as (_ & Hc & Ht).
  split; assumption.
Qed.

(** *** Function identity *)

Lemma Fn_eqb_eq (f g : Fn) : Fn_eqb f g = true <-> f = g.
Proof.
  destruct f as [m|i m|i m], g as [m'|j m'|j m']; cbn;
    try (split; [discriminate | congruence]).
  - destruct m, m'; cbn; split; congruence.
  - rewrite andb_true_iff, Nat.eqb_eq.
    destruct m, m'; cbn; split;
      try (intros [-> _]; reflexivity); try (intros [_ H]; discriminate H);
      try congruence; intros H; injection H as ->; auto.
  - rewrite andb_true_iff, Nat.eqb_eq.
    destruct m, m'; cbn; split;
      try (intros [-> _]; reflexivity); try (intros [_ H]; discriminate H);
      try congruence; intros H; injection H as ->; auto.
Qed.

Lemma off_app (f : Fn) (l l' : list Fn) : off f (l ++ l') = off f l ++ off f l'.
Proof. unfold off. apply filter_app. Qed.

Lemma off_absent (f : Fn) (l : list Fn) : ~ In f l -> off f l = l.
Proof.
  intros Hnin. unfold off. apply filter_all. apply Forall_forall.
  intros g Hg. destruct (Fn_eqb g f) eqn:Heq; [|reflexivity].
  apply Fn_eqb_eq in Heq. subst g. contradiction.
Qed.

Lemma off_self (f : Fn) : off f [f] = [].
Proof.
  unfold off. cbn. replace (Fn_eqb f f) with true; [reflexivity|].
  symmetry. apply Fn_eqb_eq. reflexivity.
Qed.

(** Removing a listener that [addEventListener] may have added. *)
Lemma off_addEventListener (f : Fn) (l : list Fn) :
  off f (addEventListener f l) = off f l.
Proof.
  unfold addEventListener. destruct (existsb (Fn_eqb f) l); [reflexivity|].
  rewrite off_app, off_self. apply app_nil_r.
Qed.

Lemma off_twice (f : Fn) (l : list Fn) : off f (off f l) = off f l.
Proof.
  unfold off. induction l as [|g l IH]; cbn; [reflexivity|].
  destruct (Fn_eqb g f) eqn:Heq; cbn; [exact IH|].
  rewrite Heq. cbn. rewrite IH. reflexivity.
Qed.

Lemma filter_twice (A : Type) (p : A -> bool) (l : list A) :
  filter p (filter p l) = filter p l.
Proof.
  induction l as [|a l IH]; cbn; [reflexivity|].
  destruct (p a) eqn:Hp; cbn; [rewrite Hp, IH; reflexivity | exact IH].
Qed.

(** *** Construction and teardown *)

(** The cases of the constructor: the three shapes of [resyncInterval],
    a number being zero, below the floor or not, in each host. *)
Ltac constructor_cases cfg h :=
  let name := fresh "name" in
  let table := fresh "table" in
  let column := fresh "column" in
  let aw := fresh "aw" in
  let ri := fresh "ri" in
  let ms := fresh "ms" in
  let Hz := fresh "Hz" in
  let Hlt := fresh "Hlt" in
  destruct cfg as [name table column aw ri];
  destruct aw;
  (destruct ri as [| |ms];
   [ | | construct; unfold resync_truthy, resync_undefined, resync_below;
         destruct (Z.eqb ms 0) eqn:Hz; cbn [negb orb andb when];
         [ | destruct (Z.ltb ms 3000) eqn:Hlt; cbn [when];
             [ | unfold resync_or; rewrite Hz ] ] ]);
  destruct h.

(** X7. A new provider.  When the constructor goes through, the provider is
    offline, unsynced and at version 0; it has subscribed once, to the
    channel named in the configuration, and holds that handle; it has called
    the store not at all and emitted nothing; the document's content is
    untouched and one bound listener each was appended to the listeners of
    the document and of the awareness; the awareness is the one the
    configuration supplies, or else a new one holding only the local client
    with the empty state. *)
Theorem constructor_starts_offline_and_subscribed (h : Host)
  (hooks : list Fn) (next : nat) (d : Doc) (cfg : PingerchipsProviderConfig) :
  let r := constructor h hooks next d cfg in
  result r = inr tt ->
  connected (after r) = false /\
  _synced (after r) = false /\
  version (after r) = 0%Z /\
  channel (after r) = Some (cfg_channel cfg) /\
  filter uses_channel (trace r) = [Subscribe (cfg_channel cfg)] /\
  filter is_store_call (trace r) = [] /\
  filter is_signal (trace r) = [] /\
  ystate (doc (after r)) = ystate d /\
  states (awareness (after r)) =
    match cfg_awareness cfg with
    | Some a => states a
    | None => [(clientID d, emptyState)]
    end /\
  exists k,
    next <= k /\
    doc_observers (doc (after r)) =
      doc_observers d ++ [FnBound k MOnDocumentUpdate] /\
    aw_observers (awareness (after r)) =
      match cfg_awareness cfg with
      | Some a => aw_observers a
      | None => []
      end ++ [FnBound (S k) MOnAwarenessUpdate].
Proof.
  cbv zeta. constructor_cases cfg h;
    try (intros Hthrown; discriminate Hthrown);
    intros _; (do 9 (split; [reflexivity|]));
    eexists; (split; [|split; reflexivity]); cbv; lia.
Qed.

(** X8. Tearing down twice.  The first [destroy()] logs, clears the
    interval the provider holds and disconnects the channel it holds.  A
    second one clears the same interval again (the handle is never reset)
    but finds no channel and disconnects nothing; it returns normally and
    leaves the timers, the channel handle and the listeners of the document
    and of the awareness as the first left them. *)
Theorem destroy_twice (s : State) :
  let first := destroy s in
  let second := destroy (after first) in
  let cleared :=
    match resyncInterval s with
    | Some id => [ClearInterval id]
    | None => []
    end in
  trace first =
    Log "destroying" :: cleared ++
    match channel s with Some _ => [ChannelDisconnect] | None => [] end /\
  trace second = Log "destroying" :: cleared /\
  result second = inr tt /\
  timer_view (after second) = timer_view (after first) /\
  doc_observers (doc (after second)) = doc_observers (doc (after first)) /\
  aw_observers (awareness (after second)) =
    aw_observers (awareness (after first)).
Proof.
  cbv zeta.
  destruct (destroy_effect (after (destroy s)))
    as (Hlive2 & Hri2 & Hch2 & Hdoc2 & Haw2 & _).
  destruct (destroy_effect s) as (Hlive & Hri & Hch & Hdoc & Haw & _).
  unfold timer_view.
  rewrite Hlive2, Hri2, Hch2, Hdoc2, Haw2, Hri, Hlive, Hch, Hdoc, Haw.
  rewrite !off_twice, destroy_returns.
  split.
  { destruct s as [d a cfg conn ch sy ri v sto h hooks timers fr el pg ps].
    destruct ri, h, ch; reflexivity. }
  split.
  { destruct s as [d a cfg conn ch sy ri v sto h hooks timers fr el pg ps].
    destruct ri, h, ch; reflexivity. }
  split; [reflexivity|]. split; [|split; reflexivity].
  destruct (resyncInterval s); [rewrite filter_twice|]; reflexivity.
Qed.

Lemma off_removes (f : Fn) (l : list Fn) : ~ In f (off f l).
Proof.
  unfold off. intros Hin. apply filter_In in Hin. destruct Hin as [_ Hne].
  replace (Fn_eqb f f) with true in Hne; [discriminate Hne|].
  symmetry. apply Fn_eqb_eq. reflexivity.
Qed.

Lemma off_keeps_others (f g : Fn) (l : list Fn) :
  g <> f -> (In g (off f l) <-> In g l).
Proof.
  intros Hne. unfold off. rewrite filter_In.
  split; [intros [Hin _]; exact Hin|].
  intros Hin. split; [exact Hin|].
  destruct (Fn_eqb g f) eqn:Heq; [|reflexivity].
  apply Fn_eqb_eq in Heq. contradiction.
Qed.

(** The unload hooks the constructor leaves: in a browser the method
    itself, added unless it is there already; under Node a new arrow
    function, added after the others. *)
Lemma constructor_hooks (h : Host) (hooks : list Fn) (next : nat) (d : Doc)
  (cfg : PingerchipsProviderConfig) :
  let r := constructor h hooks next d cfg in
  result r = inr tt ->
  match h with
  | HostBrowser =>
      unloadHooks (after r) =
        addEventListener (FnMethod MRemoveSelfFromAwarenessOnUnload) hooks
  | HostNode =>
      exists k,
        next <= k /\ k < fresh (after r) /\
        unloadHooks (after r) =
          hooks ++ [FnArrow k MRemoveSelfFromAwarenessOnUnload]
  | HostBare => unloadHooks (after r) = hooks
  end.
Proof.
  cbv zeta. constructor_cases cfg h;
    try (intros Hthrown; discriminate Hthrown);
    intros _; try reflexivity;
    eexists; (split; [|split; [|reflexivity]]); cbv; lia.
Qed.

(** X9. The unload hook across construction and teardown.  In a browser
    the constructor registers the method itself on ['beforeunload'], unless
    it is registered already, and [destroy()] removes that function: after
    it the method is not among the listeners, whether or not it was there
    before the constructor ran, and every other listener is there as
    before.  The method is the one object of the prototype: of two providers
    on a page, the first to be destroyed takes the hook away from both.
    Under Node the constructor registers a new arrow function on ['exit']
    and [destroy()] asks to remove another new one: the constructor's hook
    is still registered after [destroy()].  Elsewhere no hook is touched. *)
Theorem unload_hook_after_destroy (h : Host) (hooks : list Fn) (next : nat)
  (d : Doc) (cfg : PingerchipsProviderConfig) :
  let r := constructor h hooks next d cfg in
  result r = inr tt ->
  let method := FnMethod MRemoveSelfFromAwarenessOnUnload in
  let hooks' := unloadHooks (after (destroy (after r))) in
  match h with
  | HostBrowser =>
      hooks' = off method hooks /\
      ~ In method hooks' /\
      (forall f, f <> method -> (In f hooks' <-> In f hooks))
  | HostNode =>
      exists k,
        next <= k /\
        unloadHooks (after r) =
          hooks ++ [FnArrow k MRemoveSelfFromAwarenessOnUnload] /\
        In (FnArrow k MRemoveSelfFromAwarenessOnUnload) hooks'
  | HostBare => hooks' = hooks
  end.
Proof.
  intros r Hok method hooks'. subst hooks'.
  pose proof (constructor_hooks h hooks next d cfg Hok) as Hhooks.
  fold r in Hhooks.
  assert (Hhost : host (after r) = h).
  { subst r. revert Hok. constructor_cases cfg h;
      try (intros Hthrown; discriminate Hthrown); reflexivity. }
  destruct (destroy_effect (after r)) as (_ & _ & _ & _ & _ & Hd).
  rewrite Hd, Hhost. clear Hd.
  destruct h.
  - rewrite Hhooks, off_addEventListener.
    split; [reflexivity|]. split; [apply off_removes|].
    intros f Hf. apply off_keeps_others. exact Hf.
  - destruct Hhooks as (k & Hk & Hfresh & Hhooks).
    exists k. split; [exact Hk|]. split; [exact Hhooks|].
    rewrite Hhooks. apply off_keeps_others.
    + intros Heq. injection Heq as Heq. lia.
    + apply in_or_app. right. left. reflexivity.
  - exact Hhooks.
Qed.

(** Called by the host, the method finds no document on the host's object
    and throws before it reaches the awareness. *)
Lemma unload_method_on_host (s : State) :
  call_unload_hook (FnMethod MRemoveSelfFromAwarenessOnUnload) s =
  {| trace := []; after := s; result := inl (TypeError "clientID") |}.
Proof. reflexivity. Qed.

(** The arrow function calls nothing. *)
Lemma unload_arrow_on_host (k : nat) (m : Method) (s : State) :
  call_unload_hook (FnArrow k m) s =
  {| trace := []; after := s; result := inr tt |}.
Proof. reflexivity. Qed.

(** A bound copy of the method, which the constructor does not register,
    would remove the local client's presence. *)
Lemma unload_bound_on_host (k : nat) (s : State) :
  call_unload_hook (FnBound k MRemoveSelfFromAwarenessOnUnload) s =
  removeSelfFromAwarenessOnUnload s.
Proof. reflexivity. Qed.

(** X14. The unload hook does nothing for presence.  Whatever hook the
    constructor added, when the host calls it, leaves the provider and its
    awareness exactly as they were and announces nothing.  Under Node the
    hook is the arrow function [() => this.removeSelfFromAwarenessOnUnload],
    which evaluates to the method and does not call it.  In a browser the
    hook is the method, not bound to the provider: the window calls it on
    itself, [this.doc] is undefined there, and reading [clientID] off it
    throws before [removeAwarenessStates] is called. *)
Theorem registered_unload_hook_is_inert (h : Host) (hooks : list Fn)
  (next : nat) (d : Doc) (cfg : PingerchipsProviderConfig) (f : Fn) :
  let r := constructor h hooks next d cfg in
  result r = inr tt ->
  In f (unloadHooks (after r)) ->
  ~ In f hooks ->
  let called := call_unload_hook f (after r) in
  trace called = [] /\
  after called = after r /\
  states (awareness (after called)) = states (awareness (after r)) /\
  result called =
    match h with
    | HostBrowser => inl (TypeError "clientID")
    | _ => inr tt
    end.
Proof.
  intros r Hok Hin Hnew called. subst called.
  pose proof (constructor_hooks h hooks next d cfg Hok) as Hhooks.
  fold r in Hhooks. destruct h.
  - rewrite Hhooks in Hin. unfold addEventListener in Hin.
    destruct (existsb _ hooks); [contradiction|].
    apply in_app_or in Hin. destruct Hin as [Hin|[<-|[]]]; [contradiction|].
    rewrite unload_method_on_host. repeat split.
  - destruct Hhooks as (k & _ & _ & Hhooks). rewrite Hhooks in Hin.
    apply in_app_or in Hin. destruct Hin as [Hin|[<-|[]]]; [contradiction|].
    rewrite unload_arrow_on_host. repeat split.
  - rewrite Hhooks in Hin. contradiction.
Qed.


(** *** The listeners stay *)

Lemma listeners_refl (s : State) : keeps_listeners s [] s.
Proof. intros id m. split; auto. Qed.

Lemma listeners_trans (s : State) (t : list Effect) (s' : State)
  (t' : list Effect) (s'' : State) :
  keeps_listeners s t s' -> keeps_listeners s' t' s'' ->
  keeps_listeners s (t ++ t') s''.
Proof.
  intros H1 H2 id m. destruct (H1 id m) as [Hd1 Ha1].
  destruct (H2 id m) as [Hd2 Ha2]. split; auto.
Qed.

Ltac listeners_leaf :=
  let id := fresh "id" in
  let m := fresh "m" in
  let H := fresh "H" in
  intros id m; split; intros H; exact H.

(** A handler that reads the document or the awareness and writes it back
    with the same listeners. *)
Ltac listeners_all :=
  repeat obeys_step listeners_refl listeners_trans ltac:(listeners_leaf)
           ltac:(listeners_rewrite)
with listeners_rewrite :=
  let s := fresh "s" in
  apply obeys_reading; intros s; cbv beta zeta;
  try match goal with
      | |- context [remove_clients ?a ?b ?c ?d] =>
          destruct (remove_clients a b c d) as [[? ?] ?]
      end;
  rewrite bind_modify;
  apply after_write;
  [exact listeners_trans | listeners_leaf | listeners_all ].

Lemma applyUpdate_keeps_listeners (update : Uint8Array) (origin : Origin) :
  obeys keeps_listeners (applyUpdate update origin).
Proof.
  intros s. unfold applyUpdate. rewrite bind_gets, bind_modify.
  apply after_write; [exact listeners_trans | listeners_leaf|].
  listeners_all.
Qed.

Lemma destroy_keeps_listeners : obeys keeps_listeners destroy.
Proof.
  intros s id m. apply destroy_keeps_bound_listeners.
Qed.

Lemma step_keeps_listeners (ev : Event) : obeys keeps_listeners (step ev).
Proof.
  destruct ev as [e|id|d' delta origin|st mt added updated removed origin
                  |r|r|c]; cbn [step];
    [destruct e as [data|data| |status|]; cbn [channel_event]| | | | | |
     destruct c; cbn [call]];
    repeat obeys_step listeners_refl listeners_trans ltac:(listeners_leaf)
      ltac:(first [ apply applyUpdate_keeps_listeners
                  | apply destroy_keeps_listeners
                  | listeners_rewrite ]).
Qed.

Lemma constructor_listens (h : Host) (hooks : list Fn) (next : nat)
  (d : Doc) (cfg : PingerchipsProviderConfig) :
  result (constructor h hooks next d cfg) = inr tt ->
  listening (after (constructor h hooks next d cfg)).
Proof.
  unfold listening. constructor_cases cfg h;
    try (intros Hthrown; discriminate Hthrown);
    intros _; split; eexists; apply in_or_app; right; left; reflexivity.
Qed.

Lemma reachable_listening (s : State) : reachable s -> listening s.
Proof.
  induction 1 as [h hooks next d cfg Hok | s ev Hreach IH Hen].
  - apply constructor_listens. exact Hok.
  - destruct IH as [[id Hdoc] [id' Haw]].
    pose proof (step_keeps_listeners ev s) as Hkeep.
    split.
    + exists id. apply (Hkeep id MOnDocumentUpdate). exact Hdoc.
    + exists id'. apply (Hkeep id' MOnAwarenessUpdate). exact Haw.
Qed.



(** The document's ['update'] reaches the provider's handler wherever it
    stands among the listeners. *)
Lemma doc_update_reaches_handler (delta : Uint8Array) (origin : Origin)
  (id : nat) (l : list Fn) :
  origin <> OriginThis ->
  In (FnBound id MOnDocumentUpdate) l ->
  forall s,
    store s = None ->
    let r :=
      for_each
        (fun f =>
           match f with
           | FnBound _ MOnDocumentUpdate => onDocumentUpdate delta origin
           | _ => ret tt
           end) l s in
    In (Emit SigMessage (PBytes delta)) (trace r) /\
    In (Emit SigError (PExn (TypeError "set"))) (trace r).
Proof.
  intros Horigin. induction l as [|a l IH]; intros Hin s Hst; [contradiction|].
  cbv zeta. cbn [for_each].
  destruct a as [m|i m|i m];
    [ | destruct m | ];
    try (rewrite bind_ret_l; apply IH;
         [destruct Hin as [Habs|Hin]; [discriminate Habs | exact Hin]
         |exact Hst]).
  erewrite bind_known; [|exact (onDocumentUpdate_local delta s Horigin Hst)].
  rewrite trace_prepend. split.
  - right. left. reflexivity.
  - apply in_or_app. left. right. right. apply in_or_app. right.
    left. reflexivity.
Qed.

(** X15. No local edit is missed, and none is saved.  In every state a
    provider goes through, from its construction on and also after
    [destroy()], the provider's handler is on the document: a transaction
    with an origin other than the provider emits its delta on ['message'];
    the [save] that follows calls no store and emits, on ['error'], the
    error of reading [set] off the undefined field. *)
Theorem every_local_edit_is_emitted (d' : YDoc)
  (delta : Uint8Array) (origin : Origin) (s : State) :
  reachable s ->
  origin <> OriginThis ->
  let r := step (DocTransaction d' delta origin) s in
  In (Emit SigMessage (PBytes delta)) (trace r) /\
  In (Emit SigError (PExn (TypeError "set"))) (trace r) /\
  Forall (fun e => is_store_call e = false) (trace r).
Proof.
  intros Hreach Horigin. cbv zeta.
  pose proof (reachable_storeless Hreach) as Hs.
  split; [|split].
  3: exact (proj2 (@step_storeless (DocTransaction d' delta origin) s Hs)).
  all: cbn [step];
    destruct (reachable_listening Hreach) as [[id Hdoc] _];
    rewrite bind_gets, bind_modify; unfold doc_fire_update;
    rewrite bind_gets; cbn [doc with_doc doc_observers];
    apply (@doc_update_reaches_handler delta origin id _ Horigin Hdoc);
    exact (proj1 Hs).
Qed.

(** X16. No presence change is kept back.  In every state a provider can
    be in, a change of the awareness, whatever its origin (the provider
    itself included), is emitted on ['awareness'] as the encoding of the
    clients added, updated and removed, and triggered on the channel while
    the handle is held. *)
Theorem every_presence_change_is_announced (st : JsMap AwState)
  (mt : JsMap nat) (added updated removed : list Z) (origin : Origin)
  (s : State) :
  reachable s ->
  let r := step (AwarenessChange st mt added updated removed origin) s in
  let update := encodeAwarenessUpdate st mt (added ++ updated ++ removed) in
  incl (Emit SigAwareness (PBytes update) :: sent ClientAwareness update s)
       (trace r) /\
  result r = inr tt.
Proof.
  intros Hreach. cbv zeta. cbn [step].
  destruct (reachable_listening Hreach) as [_ [id Haw]].
  rewrite bind_gets, bind_modify, awareness_fire_update_eq.
  cbn [trace result]. split; [|reflexivity].
  intros e He. unfold announced. apply in_flat_map.
  exists (FnBound id MOnAwarenessUpdate). split; [exact Haw|exact He].
Qed.

End Facts.

(** ** The model at concrete inputs *)

Lemma fresh_provider_reachable (r : ResyncInterval) :
  result (constructor HostNode [] 0 Demo.doc1 (Demo.config_with r)) = inr tt ->
  reachable (Demo.fresh_provider r).
Proof. intros Hok. unfold Demo.fresh_provider. apply reachable_new. exact Hok. Qed.

Lemma online_provider_reachable : reachable Demo.online_provider.
Proof.
  change Demo.online_provider
    with (after (step (FromCaller (CallIsOnline (Some true)))
                   (after (step (FromChannel SubscriptionSucceeded)
                             (Demo.fresh_provider RUndefined))))).
  apply reachable_step; [apply reachable_step|]; try reflexivity.
  apply fresh_provider_reachable. reflexivity.
Qed.

(** C1 at an input: two messages delivered to the online demo provider. *)
Lemma remote_applies_do_not_echo_witness :
  connected Demo.online_provider = true /\
  count is_broadcast
    (fst (run (deliveries ["ab"; "c"]%string) Demo.online_provider)) = 0 /\
  count is_persistence
    (fst (run (deliveries ["ab"; "c"]%string) Demo.online_provider)) = 0.
Proof.
  pose proof (@remote_applies_do_not_echo Demo.libraries ["ab"; "c"]%string
                Demo.online_provider eq_refl) as H.
  cbv zeta in H. destruct H as (_ & Hcount & Hstore & _).
  split; [reflexivity | split; [exact (Hcount []) | exact Hstore]].
Defined.

(** C2 at an input: a message delivered before the subscription succeeded. *)
Lemma offline_message_is_dropped_witness :
  connected (Demo.fresh_provider RUndefined) = false /\
  after (onMessage ["a"%byte] OriginThis (Demo.fresh_provider RUndefined)) =
    Demo.fresh_provider RUndefined.
Proof.
  pose proof (@offline_message_is_dropped Demo.libraries ["a"%byte] OriginThis
                (Demo.fresh_provider RUndefined) eq_refl) as H.
  cbv zeta in H. destruct H as (_ & _ & _ & _ & Hsame & _).
  split; [reflexivity | exact Hsame].
Defined.

(** C3 at the failing input: an edit made by the caller of the online demo
    provider, on which nobody listens for ['error'].  The delta is emitted
    and triggered on the channel; no store is called. *)
Lemma local_edit_is_broadcast_but_not_saved_witness :
  OriginUndefined <> OriginThis /\
  trace (onDocumentUpdate ["e"%byte] OriginUndefined Demo.online_provider) =
    [Log "document updated locally, broadcasting update to peers";
     Emit SigMessage (PBytes ["e"%byte]);
     Trigger ClientMessage "e";
     Emit SigError (PExn (TypeError "set"));
     Rejected (TypeError "set")] /\
  filter is_persistence
    (trace (onDocumentUpdate ["e"%byte] OriginUndefined Demo.online_provider)) =
    [].
Proof.
  assert (Horigin : OriginUndefined <> OriginThis) by discriminate.
  pose proof (@local_edit_is_broadcast_but_not_saved Demo.libraries
                ["e"%byte] OriginUndefined Demo.online_provider
                online_provider_reachable Horigin) as H.
  cbv zeta in H. destruct H as (Htrace & _ & _ & Hstore & _).
  split; [exact Horigin | split; [exact Htrace | exact Hstore]].
Defined.

(** C4 at the failing input, on a provider that was given a store: the
    subscription succeeds and [store.get] rejects.  The provider stays
    offline and emits neither ['error'] nor ['status']. *)
Example store_get_rejection_run :
  let r := run [FromChannel SubscriptionSucceeded;
                StoreGetSettles (inl (Error "store unavailable"))]
               Demo.provider_with_store in
  fst r = [Log "PUSHER_SUBSCRIPTION_SUCCEEDED"; EmitLifecycle SigConnect;
           Log "connected"; StoreGet] /\
  connected (snd r) = false.
Proof. split; reflexivity. Qed.

(** The same on the provider as the constructor leaves it: the fetch fails
    where it reads [get], on every successful subscription, with the same
    outcome. *)
Example store_get_without_store_run :
  let r := run [FromChannel SubscriptionSucceeded]
               (Demo.fresh_provider RUndefined) in
  fst r = [Log "PUSHER_SUBSCRIPTION_SUCCEEDED"; EmitLifecycle SigConnect;
           Log "connected"; Rejected (TypeError "get")] /\
  connected (snd r) = false.
Proof. split; reflexivity. Qed.

(** C5 as stated fails at 0: it is below the floor of 3000, and the
    constructor neither throws nor arms an interval. *)
Lemma resync_zero_is_accepted :
  (0 < 3000)%Z /\
  let r := constructor HostNode [] 0 Demo.doc1 (Demo.config_with (RNumber 0)) in
  result r = inr tt /\
  intervals_set (trace r) = [] /\
  liveTimers (after r) = [] /\
  channel (after r) = Some "room"%string.
Proof. split; [reflexivity | repeat split]. Qed.

(** C6 at an input: the interval of the online demo provider fires. *)
Lemma resync_tick_rebroadcasts_witness :
  enabled (TimerFires 0) Demo.online_provider = true /\
  count is_broadcast (trace (step (TimerFires 0) Demo.online_provider)) = 3.
Proof.
  pose proof (@resync_tick_rebroadcasts Demo.libraries Demo.online_provider 0
                online_provider_reachable eq_refl) as H.
  cbv zeta in H. destruct H as (Htrace & _).
  split; [reflexivity | rewrite Htrace; reflexivity].
Defined.

(** C7 as stated fails once a peer is known: disconnecting the demo provider
    that holds the state of client 97 emits the removal on ['awareness'] and
    triggers it on the channel. *)
Lemma disconnect_cleanup_is_announced :
  connected Demo.provider_with_peer = true /\
  filter is_presence_out (trace (onDisconnect Demo.provider_with_peer)) =
    [Emit SigAwareness (PBytes ["c"%byte]); Trigger ClientAwareness "c"] /\
  ~ cleanup_stays_local Demo.provider_with_peer.
Proof.
  split; [reflexivity | split; [reflexivity|]].
  intros (_ & _ & _ & Hnone & _). discriminate Hnone.
Qed.

(** C7, amended, at that input. *)
Lemma disconnect_cleanup_witness :
  map_get 97%Z (states (awareness (after (onDisconnect Demo.provider_with_peer))))
    = None /\
  In (Trigger ClientAwareness "c")
     (trace (onDisconnect Demo.provider_with_peer)).
Proof.
  pose proof (@disconnect_cleanup Demo.libraries Demo.provider_with_peer) as H.
  cbv zeta in H.
  destruct H as (_ & _ & _ & Hgone & _ & _ & _ & Hsent & _).
  split.
  - apply Hgone. vm_compute. discriminate.
  - refine (proj2 (Hsent 3 "room"%string _ _ _)).
    + vm_compute. discriminate.
    + vm_compute. left. reflexivity.
    + vm_compute. reflexivity.
Defined.

(** C8 at the failing input: [destroy()], then an edit of the document.  The
    interval is cleared and the channel released, but the listeners on the
    document and on the awareness and the exit hook are all still there, and
    the edit still runs [onDocumentUpdate], which emits the delta and goes on
    to [save]. *)
Theorem destroy_leaves_update_listeners :
  let s := after (destroy Demo.online_provider) in
  liveTimers s = [] /\
  channel s = None /\
  doc_observers (doc s) = [FnBound 2 MOnDocumentUpdate] /\
  aw_observers (awareness s) = [FnBound 3 MOnAwarenessUpdate] /\
  unloadHooks s = [FnArrow 1 MRemoveSelfFromAwarenessOnUnload] /\
  trace (step (@DocTransaction Demo.libraries ["e"%byte] ["e"%byte]
                 OriginUndefined) s) =
    [Log "document updated locally, broadcasting update to peers";
     Emit SigMessage (PBytes ["e"%byte]);
     Emit SigError (PExn (TypeError "set"));
     Rejected (TypeError "set")] /\
  result (destroy s) = inr tt.
Proof. cbv zeta. repeat split; vm_compute; reflexivity. Qed.

(** C9 at the failing input: nobody listens on ['error'].  On the 403 the
    online demo provider emits ['error'], the emitter throws, and there is no
    ['disconnect']; the provider stays online.  What the specification asks
    for, an error signal and then a disconnect signal, does not happen. *)
Example auth_failure_without_error_listener :
  let r := channel_event (SubscriptionError (Some 403%Z)) Demo.online_provider in
  errorListeners Demo.online_provider = 0 /\
  trace r = [Log "PUSHER AUTH ERROR"; Emit SigError PThis] /\
  result r = inl UnhandledErrorEvent /\
  connected (after r) = true /\
  ~ auth_failure_signalled Demo.online_provider.
Proof.
  cbv zeta. repeat split.
  intros (_ & Hdisc & _). cbn in Hdisc.
  destruct Hdisc as [H|[H|[]]]; discriminate H.
Qed.

(** ** Further properties at concrete inputs *)

(** X1 at an input: the subscription of the demo provider succeeds, its
    caller marks it online and then disconnects it. *)
Lemma never_synced_by_itself_witness :
  _synced
    (snd (run [FromChannel SubscriptionSucceeded;
               FromCaller (CallIsOnline (Some true));
               FromCaller CallOnDisconnect]
              (Demo.fresh_provider RUndefined))) = false.
Proof.
  refine (proj1 (@never_synced_by_itself Demo.libraries
                   [FromChannel SubscriptionSucceeded;
                    FromCaller (CallIsOnline (Some true));
                    FromCaller CallOnDisconnect]
                   (Demo.fresh_provider RUndefined) eq_refl _)).
  intros [H|[H|[H|[]]]]; discriminate H.
Defined.

(** X3 at an input: the subscription of the new demo provider succeeds, a
    message arrives and the document is edited. *)
Lemma provider_never_comes_online_witness :
  connected
    (snd (run [FromChannel SubscriptionSucceeded;
               FromChannel (ClientMessageData "ab");
               @DocTransaction Demo.libraries ["e"%byte] ["e"%byte]
                 OriginUndefined]
              (Demo.fresh_provider RUndefined))) = false.
Proof.
  refine (proj1 (@provider_never_comes_online Demo.libraries
                   [FromChannel SubscriptionSucceeded;
                    FromChannel (ClientMessageData "ab");
                    @DocTransaction Demo.libraries ["e"%byte] ["e"%byte]
                      OriginUndefined]
                   (Demo.fresh_provider RUndefined)
                   (@fresh_provider_reachable RUndefined eq_refl)
                   eq_refl eq_refl _)).
  intros [H|[H|[H|[]]]]; discriminate H.
Defined.

(** X7 at an input: the demo provider under Node with the default
    interval. *)
Lemma constructor_starts_offline_and_subscribed_witness :
  result (constructor HostNode [] 0 Demo.doc1 (Demo.config_with RUndefined)) =
    inr tt /\
  channel (Demo.fresh_provider RUndefined) = Some "room"%string.
Proof.
  pose proof (@constructor_starts_offline_and_subscribed Demo.libraries
                HostNode [] 0 Demo.doc1 (Demo.config_with RUndefined)
                eq_refl) as H.
  cbv zeta in H. destruct H as (_ & _ & _ & Hchannel & _).
  split; [reflexivity | exact Hchannel].
Defined.

(** X9 at an input: in a browser where another provider has registered the
    method on ['beforeunload'] and the page a listener of its own, that
    listener is all that is left after [destroy()]. *)
Lemma unload_hook_after_destroy_witness :
  unloadHooks
    (after (destroy
              (after (constructor HostBrowser
                        [FnMethod MRemoveSelfFromAwarenessOnUnload;
                         FnArrow 9 MOnDocumentUpdate] 0
                        Demo.doc1 (Demo.config_with RFalse))))) =
    [FnArrow 9 MOnDocumentUpdate].
Proof.
  exact (proj1 (@unload_hook_after_destroy Demo.libraries HostBrowser
                  [FnMethod MRemoveSelfFromAwarenessOnUnload;
                   FnArrow 9 MOnDocumentUpdate] 0 Demo.doc1
                  (Demo.config_with RFalse) eq_refl)).
Defined.

(** X13 at an input: the online demo provider sees a successful
    subscription, an edit of the document and a call of [save()]. *)
Lemma store_is_never_called_witness :
  filter is_store_call
    (fst (run [FromChannel SubscriptionSucceeded;
               @DocTransaction Demo.libraries ["e"%byte] ["e"%byte]
                 OriginUndefined;
               FromCaller CallSave]
              Demo.online_provider)) = [].
Proof.
  apply filter_none.
  exact (proj1 (proj2 (@store_is_never_called Demo.libraries
                         [FromChannel SubscriptionSucceeded;
                          @DocTransaction Demo.libraries ["e"%byte] ["e"%byte]
                            OriginUndefined;
                          FromCaller CallSave]
                         Demo.online_provider online_provider_reachable))).
Defined.

(** X14 at an input: the hook of the demo provider in a browser. *)
Lemma registered_unload_hook_is_inert_witness :
  let s := after (constructor HostBrowser [] 0 Demo.doc1
                    (Demo.config_with RUndefined)) in
  unloadHooks s = [FnMethod MRemoveSelfFromAwarenessOnUnload] /\
  result (call_unload_hook (FnMethod MRemoveSelfFromAwarenessOnUnload) s) =
    inl (TypeError "clientID") /\
  states (awareness
            (after (call_unload_hook
                      (FnMethod MRemoveSelfFromAwarenessOnUnload) s))) =
    [(1%Z, 0)].
Proof.
  cbv zeta.
  pose proof (@registered_unload_hook_is_inert Demo.libraries HostBrowser []
                0 Demo.doc1 (Demo.config_with RUndefined)
                (FnMethod MRemoveSelfFromAwarenessOnUnload) eq_refl
                (or_introl eq_refl) (fun H => H)) as H.
  cbv zeta in H. destruct H as (_ & _ & Hstates & Hresult).
  split; [reflexivity | split; [exact Hresult | exact Hstates]].
Defined.

(** X15 at an input: an edit of the document of the online demo provider. *)
Lemma every_local_edit_is_emitted_witness :
  In (Emit SigMessage (PBytes ["e"%byte]))
     (trace (step (@DocTransaction Demo.libraries ["e"%byte] ["e"%byte]
                     OriginUndefined) Demo.online_provider)).
Proof.
  assert (Horigin : OriginUndefined <> OriginThis) by discriminate.
  exact (proj1 (@every_local_edit_is_emitted Demo.libraries
                  ["e"%byte] ["e"%byte] OriginUndefined Demo.online_provider
                  online_provider_reachable Horigin)).
Defined.

(** X16 at an input: the caller of the online demo provider changes its
    own presence. *)
Lemma every_presence_change_is_announced_witness :
  In (Emit SigAwareness (PBytes ["c"%byte]))
     (trace (step (@AwarenessChange Demo.libraries [(1%Z, 4)] [(1%Z, 1)]
                     [] [1%Z] [] (OriginOther "local"))
                  Demo.online_provider)).
Proof.
  exact (proj1 (@every_presence_change_is_announced Demo.libraries
                  [(1%Z, 4)] [(1%Z, 1)] [] [1%Z] []
                  (OriginOther "local") Demo.online_provider
                  online_provider_reachable)
               _ (or_introl eq_refl)).
Defined.
